(** * Nassim's Stitches: the cart script (cart.js)

    A shallow embedding of [src/cart.js] and the properties of its cart
    engine, badge, renderers and removal dialog.

    Modelling conventions.
    - JavaScript numbers are integers ([Z]) or [NaN]: the script only adds,
      multiplies and compares quantities and prices, and [parseInt] yields
      an integer or [NaN].  Rounding of doubles is not modelled: the
      model is exact for safe integers (up to 2^53), and statements about
      what [parseInt] reads say so ([safe_integer]).
    - The text held under a [localStorage] key is identified with what
      [JSON.parse] makes of it: the JSON array of line objects it denotes,
      some other JSON value, or no JSON at all.  Arrays with elements
      that are no complete line objects are not among the stores of the
      model; the statements that speak of a cart say that it loads
      ([persisted]).
    - The page is a record of the anchors the script looks up; an anchor
      that is missing from the page is [None].  Text written with a
      template literal is kept as the values that were formatted
      ([Ksh n] for [`Ksh ${n.toLocaleString()}`]).  A row holds the
      strings of its line as they were written into the template; the
      HTML parser reads them back like that when they hold no character
      that is special in HTML, and the statements about what rows show
      say so ([plain_line]).
    - A call that raises carries the world as it was when the exception
      left the function. *)

From Stdlib Require Import ZArith Ascii String.
From stdpp Require Import base option list strings.

Local Open Scope Z_scope.

(** ** Values *)

(** A JavaScript number. *)
Inductive Number :=
| Fin (z : Z)
| NaN.

(** What the [quantity] property of a line object may hold. *)
Inductive JsValue :=
| VNumber (n : Number)
| VNull.

Global Instance Number_eq_dec : EqDecision Number.
Proof. solve_decision. Defined.

Global Instance JsValue_eq_dec : EqDecision JsValue.
Proof. solve_decision. Defined.

(** [ToNumber]: [null] converts to [0]. *)
Definition ToNumber (v : JsValue) : Number :=
  match v with
  | VNumber n => n
  | VNull => Fin 0
  end.

(** [a + b] on numbers. *)
Definition js_add (a b : Number) : Number :=
  match a, b with
  | Fin x, Fin y => Fin (x + y)
  | _, _ => NaN
  end.

(** [a * b] on numbers. *)
Definition js_mul (a b : Number) : Number :=
  match a, b with
  | Fin x, Fin y => Fin (x * y)
  | _, _ => NaN
  end.

(** [a < b]: every comparison with [NaN] is false. *)
Definition js_lt (a b : Number) : bool :=
  match a, b with
  | Fin x, Fin y => x <? y
  | _, _ => false
  end.

(** [a > b]. *)
Definition js_gt (a b : Number) : bool := js_lt b a.

(** ** Products and cart lines *)

Record Product := {
  product_id : string;
  product_name : string;
  product_price : Z;
  product_img : string;
}.

(** A line object of the cart array, in memory. *)
Record CartLine := {
  item_id : string;
  item_name : string;
  item_price : Z;
  item_img : string;
  item_quantity : JsValue;
}.

(** A line object as JSON text can hold it: no [NaN]. *)
Record JsonLine := {
  json_id : string;
  json_name : string;
  json_price : Z;
  json_img : string;
  json_quantity : option Z;   (* [None] is [null] *)
}.

Global Instance Product_eq_dec : EqDecision Product.
Proof. solve_decision. Defined.

Global Instance CartLine_eq_dec : EqDecision CartLine.
Proof. solve_decision. Defined.

Global Instance JsonLine_eq_dec : EqDecision JsonLine.
Proof. solve_decision. Defined.

(** [item.quantity = q]. *)
Definition set_quantity (q : JsValue) (item : CartLine) : CartLine :=
  {| item_id := item_id item; item_name := item_name item;
     item_price := item_price item; item_img := item_img item;
     item_quantity := q |}.

(** [item.quantity++]. *)
Definition increment_quantity (item : CartLine) : CartLine :=
  set_quantity (VNumber (js_add (ToNumber (item_quantity item)) (Fin 1))) item.

(** [{ ...product, quantity: 1 }]. *)
Definition new_line (product : Product) : CartLine :=
  {| item_id := product_id product; item_name := product_name product;
     item_price := product_price product; item_img := product_img product;
     item_quantity := VNumber (Fin 1) |}.

(** ** JSON *)

(** [JSON.stringify] writes a number that is not finite as [null]. *)
Definition stringify_quantity (v : JsValue) : option Z :=
  match v with
  | VNumber (Fin z) => Some z
  | VNumber NaN => None
  | VNull => None
  end.

Definition parse_quantity (j : option Z) : JsValue :=
  match j with
  | Some z => VNumber (Fin z)
  | None => VNull
  end.

Definition stringify_line (item : CartLine) : JsonLine :=
  {| json_id := item_id item; json_name := item_name item;
     json_price := item_price item; json_img := item_img item;
     json_quantity := stringify_quantity (item_quantity item) |}.

Definition parse_line (j : JsonLine) : CartLine :=
  {| item_id := json_id j; item_name := json_name j;
     item_price := json_price j; item_img := json_img j;
     item_quantity := parse_quantity (json_quantity j) |}.

(** The text under a storage key, as [JSON.parse] sees it.  Arrays
    with an element that is no complete line object ([null], a number, an
    object without a price), and objects that have a [length] of their
    own, are left out: the script loads such an array and raises later,
    at the first property it misses. *)
Inductive StoredText :=
| JsonArray (lines : list JsonLine)   (* an array of line objects *)
| JsonFalsy                           (* null, false, 0 or the empty string *)
| JsonOther                           (* any other value that is no array *)
| NotJson.                            (* text that is not JSON *)

Global Instance StoredText_eq_dec : EqDecision StoredText.
Proof. solve_decision. Defined.

(** The value of the expression [JSON.parse(...) || []] and of the
    variable [cart] it is bound to. *)
Inductive JsCart :=
| CartArray (items : list CartLine)
| CartOther.

Inductive Exn :=
| SyntaxError
| TypeError.

(** [JSON.stringify(cart)] for an array of lines. *)
Definition JSON_stringify (cart : list CartLine) : StoredText :=
  JsonArray (stringify_line <$> cart).

(** [JSON.parse(text) || []], where [text] is what [getItem] returned:
    [null] (no such key) is converted to the text [null] and parses. *)
Definition JSON_parse_or_empty (text : option StoredText) : Exn + JsCart :=
  match text with
  | None => inr (CartArray [])
  | Some JsonFalsy => inr (CartArray [])
  | Some (JsonArray lines) => inr (CartArray (parse_line <$> lines))
  | Some JsonOther => inr CartOther
  | Some NotJson => inl SyntaxError
  end.

(** ** The page *)

Inductive Display :=
| DisplayUnset     (* no inline style *)
| DisplayBlock
| DisplayNone.

(** Text content of an element. *)
Inductive Content :=
| Markup (s : string)     (* whatever the page came with *)
| Count (n : Number)      (* [el.textContent = n] *)
| Ksh (n : Number).       (* [`Ksh ${n.toLocaleString()}`] *)

(** An element of class [cart-count]. *)
Record Badge := {
  textContent : Content;
  display : Display;
}.

(** A row of the cart table. *)
Record Row := {
  row_img : string;
  row_name : string;
  row_price : Z;
  row_value : JsValue;        (* value attribute of the quantity input *)
  row_subtotal : Number;
  row_id : string;            (* data-id of the input and of the button *)
  row_change : bool;          (* the input has its change listener *)
  row_click : option nat;     (* the remove button's click listener:
                                 which activation of initCartPage owns it *)
}.

(** The confirmation dialog.  Every activation of [initCartPage] that
    reaches the dialog code declares its own [productIdToRemove] and adds
    its own listeners to the three buttons; [closures] lists those
    variables in the order the listeners were added. *)
Record Modal := {
  modal_show : bool;
  closures : list (option string);
}.

(** The anchors of the cart page; the record exists when
    [.cart-table tbody] does. *)
Record CartPage := {
  cartItemsContainer : list Row;
  cartSubtotalElement : option Content;
  cartTotalElement : option Content;
  checkoutBtn : option bool;           (* has class [btn-disabled] *)
  emptyCartMessage : option Display;
  cartTotalContainer : option Display;
  removeModal : option Modal;
}.

Inductive SummaryNode :=
| EmptyNotice                                            (* the <p> of the empty cart *)
| SummaryItem (name : string) (quantity : JsValue) (itemTotal : Number).

Record Button := {
  disabled : bool;
  btn_disabled : bool;     (* has class [btn-disabled] *)
}.

Inductive InputValue :=
| RawValue (s : string)
| OrderText (total : Number) (summaryText : list SummaryNode).

(** The anchors of the checkout page; the record exists when
    [#order-summary-items] does. *)
Record CheckoutPage := {
  summaryContainer : list SummaryNode;
  subtotalEl : option Content;
  totalEl : option Content;
  placeOrderBtn : option Button;
  orderSummaryInput : option InputValue;
}.

Record Storage := {
  nassimStitchesCart : option StoredText;
  orderDetails : option string;
}.

Record World := {
  localStorage : Storage;
  cartCountElements : list Badge;
  toastContainer : option (list string);
  cartPage : option CartPage;
  checkoutPage : option CheckoutPage;
}.

Definition set_localStorage (s : Storage) (w : World) : World :=
  {| localStorage := s; cartCountElements := cartCountElements w;
     toastContainer := toastContainer w; cartPage := cartPage w;
     checkoutPage := checkoutPage w |}.

Definition set_cartCountElements (b : list Badge) (w : World) : World :=
  {| localStorage := localStorage w; cartCountElements := b;
     toastContainer := toastContainer w; cartPage := cartPage w;
     checkoutPage := checkoutPage w |}.

Definition set_toastContainer (t : option (list string)) (w : World) : World :=
  {| localStorage := localStorage w; cartCountElements := cartCountElements w;
     toastContainer := t; cartPage := cartPage w;
     checkoutPage := checkoutPage w |}.

Definition set_cartPage (p : option CartPage) (w : World) : World :=
  {| localStorage := localStorage w; cartCountElements := cartCountElements w;
     toastContainer := toastContainer w; cartPage := p;
     checkoutPage := checkoutPage w |}.

Definition set_checkoutPage (p : option CheckoutPage) (w : World) : World :=
  {| localStorage := localStorage w; cartCountElements := cartCountElements w;
     toastContainer := toastContainer w; cartPage := cartPage w;
     checkoutPage := p |}.

(** ** Calls: state and exceptions *)

Inductive Outcome (A : Type) :=
| Returns (a : A) (w : World)
| Throws (e : Exn) (w : World).

Arguments Returns {A} a w.
Arguments Throws {A} e w.

Definition JS (A : Type) : Type := World → Outcome A.

Global Instance JS_ret : MRet JS := λ A a w, Returns a w.

Global Instance JS_bind : MBind JS := λ A B f m w,
  match m w with
  | Returns a w' => f a w'
  | Throws e w' => Throws e w'
  end.

Definition throw {A} (e : Exn) : JS A := λ w, Throws e w.
Definition get_world : JS World := λ w, Returns w w.
Definition modify (f : World → World) : JS unit := λ w, Returns tt (f w).

(** The world a call leaves behind, however it ended. *)
Definition world_after {A} (o : Outcome A) : World :=
  match o with
  | Returns _ w => w
  | Throws _ w => w
  end.

(** A call of an array method ([find], [filter], [reduce], [forEach]) on
    the value of [cart]: a value that is no array has no such method. *)
Definition array_method (cart : JsCart) : JS (list CartLine) :=
  match cart with
  | CartArray items => mret items
  | CartOther => throw TypeError
  end.

(** [cart.length === 0].  The truthy values that are no array and are
    modelled have no [length], or are strings that are not empty. *)
Definition length_is_0 (cart : JsCart) : bool :=
  match cart with
  | CartArray [] => true
  | _ => false
  end.

(** ** localStorage *)

Definition setItem_cart (text : StoredText) : JS unit :=
  modify (λ w, set_localStorage
    {| nassimStitchesCart := Some text;
       orderDetails := orderDetails (localStorage w) |} w).

Definition removeItem_cart : JS unit :=
  modify (λ w, set_localStorage
    {| nassimStitchesCart := None;
       orderDetails := orderDetails (localStorage w) |} w).

Definition removeItem_orderDetails : JS unit :=
  modify (λ w, set_localStorage
    {| nassimStitchesCart := nassimStitchesCart (localStorage w);
       orderDetails := None |} w).

(** ** Helper functions of the script *)

(** [getCart], lines 45-47. *)
Definition getCart : JS JsCart := λ w,
  match JSON_parse_or_empty (nassimStitchesCart (localStorage w)) with
  | inr cart => Returns cart w
  | inl e => Throws e w
  end.

(** [(sum, item) => sum + item.quantity] *)
Definition add_quantity (sum : Number) (item : CartLine) : Number :=
  js_add sum (ToNumber (item_quantity item)).

(** The body of the [forEach] of [updateCartCount], lines 66-71. *)
Definition show_count (totalItems : Number) (el : Badge) : Badge :=
  if js_gt totalItems (Fin 0)
  then {| textContent := Count totalItems; display := DisplayBlock |}
  else {| textContent := textContent el; display := DisplayNone |}.

(** [updateCartCount], lines 61-73. *)
Definition updateCartCount : JS unit :=
  cart ← getCart;
  items ← array_method cart;
  let totalItems := foldl add_quantity (Fin 0) items in
  modify (λ w, set_cartCountElements (show_count totalItems <$> cartCountElements w) w).

(** [saveCart], lines 53-56. *)
Definition saveCart (cart : list CartLine) : JS unit :=
  setItem_cart (JSON_stringify cart);;
  updateCartCount.

(** [showToast], lines 79-98; the timers only animate the toast and take
    it away again. *)
Definition showToast (message : string) : JS unit :=
  modify (λ w,
    match toastContainer w with
    | None => w
    | Some toasts => set_toastContainer (Some (toasts ++ [message])) w
    end).

(** ** The cart engine *)

(** [window.addToCart], lines 14-26.  [find] hands out the first line
    with the product's id; the increment changes that line in the array. *)
Definition addToCart (product : Product) : JS unit :=
  cart ← getCart;
  items ← array_method cart;
  let items' :=
    match list_find (λ item, item_id item = product_id product) items with
    | Some (i, existingItem) => <[i := increment_quantity existingItem]> items
    | None => items ++ [new_line product]
    end in
  saveCart items';;
  showToast (String.append (product_name product) " has been added to your cart!"%string).

(** [window.clearCart], lines 31-35. *)
Definition clearCart : JS unit :=
  removeItem_cart;;
  removeItem_orderDetails;;
  updateCartCount.

(** ** The checkout summary *)

(** What the [forEach] of [initCheckoutPage] carries from line to line:
    [subtotal], the children of the container and [summaryText]. *)
Definition summary_step (acc : Number * list SummaryNode * list SummaryNode)
    (item : CartLine) : Number * list SummaryNode * list SummaryNode :=
  let '(subtotal, nodes, summaryText) := acc in
  let itemTotal := js_mul (Fin (item_price item)) (ToNumber (item_quantity item)) in
  let node := SummaryItem (item_name item) (item_quantity item) itemTotal in
  (js_add subtotal itemTotal, nodes ++ [node], summaryText ++ [node]).

Definition set_summaryContainer (nodes : list SummaryNode) (p : CheckoutPage) : CheckoutPage :=
  {| summaryContainer := nodes; subtotalEl := subtotalEl p; totalEl := totalEl p;
     placeOrderBtn := placeOrderBtn p; orderSummaryInput := orderSummaryInput p |}.

(** Lines 148-155: the empty cart. *)
Definition checkout_empty (p : CheckoutPage) : CheckoutPage :=
  {| summaryContainer := [EmptyNotice];
     subtotalEl := (λ _, Ksh (Fin 0)) <$> subtotalEl p;
     totalEl := (λ _, Ksh (Fin 0)) <$> totalEl p;
     placeOrderBtn := (λ _, {| disabled := true; btn_disabled := true |}) <$> placeOrderBtn p;
     orderSummaryInput := orderSummaryInput p |}.

(** Lines 158-179: the cart has lines. *)
Definition checkout_filled (items : list CartLine) (p : CheckoutPage) : CheckoutPage :=
  let '(subtotal, nodes, summaryText) :=
    foldl summary_step (Fin 0, summaryContainer p, []) items in
  {| summaryContainer := nodes;
     subtotalEl := (λ _, Ksh subtotal) <$> subtotalEl p;
     totalEl := (λ _, Ksh subtotal) <$> totalEl p;
     placeOrderBtn := (λ _, {| disabled := false; btn_disabled := false |}) <$> placeOrderBtn p;
     orderSummaryInput := (λ _, OrderText subtotal summaryText) <$> orderSummaryInput p |}.

(** [initCheckoutPage], lines 133-180. *)
Definition initCheckoutPage : JS unit :=
  w ← get_world;
  match checkoutPage w with
  | None => mret tt
  | Some _ =>
      cart ← getCart;
      modify (λ w, set_checkoutPage (set_summaryContainer [] <$> checkoutPage w) w);;
      if length_is_0 cart
      then modify (λ w, set_checkoutPage (checkout_empty <$> checkoutPage w) w)
      else
        items ← array_method cart;
        modify (λ w, set_checkoutPage (checkout_filled items <$> checkoutPage w) w)
  end.

(** ** The cart page *)

(** [itemSubtotal] and [itemTotal]: [item.price * item.quantity]. *)
Definition item_subtotal (item : CartLine) : Number :=
  js_mul (Fin (item_price item)) (ToNumber (item_quantity item)).

(** The row of lines 215-223, fresh from [createElement]: no listeners.
    The fields go into the template as they are, without escaping; the
    record keeps what was written, which is what the parser reads back
    ([dataset.id] at lines 235 and 260 included) for strings that are
    [html_plain]. *)
Definition item_row (item : CartLine) : Row :=
  {| row_img := item_img item; row_name := item_name item;
     row_price := item_price item; row_value := item_quantity item;
     row_subtotal := item_subtotal item; row_id := item_id item;
     row_change := false; row_click := None |}.

(** What the [forEach] of [initCartPage] carries from line to line:
    [subtotal] and the rows of the table body. *)
Definition row_step (acc : Number * list Row) (item : CartLine) : Number * list Row :=
  let '(subtotal, rows) := acc in
  (js_add subtotal (item_subtotal item), rows ++ [item_row item]).

Definition set_cartItemsContainer (rows : list Row) (p : CartPage) : CartPage :=
  {| cartItemsContainer := rows; cartSubtotalElement := cartSubtotalElement p;
     cartTotalElement := cartTotalElement p; checkoutBtn := checkoutBtn p;
     emptyCartMessage := emptyCartMessage p;
     cartTotalContainer := cartTotalContainer p; removeModal := removeModal p |}.

Definition set_removeModal (m : option Modal) (p : CartPage) : CartPage :=
  {| cartItemsContainer := cartItemsContainer p;
     cartSubtotalElement := cartSubtotalElement p;
     cartTotalElement := cartTotalElement p; checkoutBtn := checkoutBtn p;
     emptyCartMessage := emptyCartMessage p;
     cartTotalContainer := cartTotalContainer p; removeModal := m |}.

(** Lines 200-203: the empty cart. *)
Definition cart_empty (p : CartPage) : CartPage :=
  {| cartItemsContainer := cartItemsContainer p;
     cartSubtotalElement := cartSubtotalElement p;
     cartTotalElement := cartTotalElement p;
     checkoutBtn := (λ _, true) <$> checkoutBtn p;
     emptyCartMessage := (λ _, DisplayBlock) <$> emptyCartMessage p;
     cartTotalContainer := (λ _, DisplayNone) <$> cartTotalContainer p;
     removeModal := removeModal p |}.

(** Lines 206-207. *)
Definition cart_show_totals (p : CartPage) : CartPage :=
  {| cartItemsContainer := cartItemsContainer p;
     cartSubtotalElement := cartSubtotalElement p;
     cartTotalElement := cartTotalElement p;
     checkoutBtn := checkoutBtn p;
     emptyCartMessage := (λ _, DisplayNone) <$> emptyCartMessage p;
     cartTotalContainer := (λ _, DisplayBlock) <$> cartTotalContainer p;
     removeModal := removeModal p |}.

(** Line 232-237: every quantity input of the document gets the listener. *)
Definition listen_change (r : Row) : Row :=
  {| row_img := row_img r; row_name := row_name r; row_price := row_price r;
     row_value := row_value r; row_subtotal := row_subtotal r;
     row_id := row_id r; row_change := true; row_click := row_click r |}.

(** Lines 258-262: every remove button of the document gets the listener
    of activation [k]. *)
Definition listen_click (k : nat) (r : Row) : Row :=
  {| row_img := row_img r; row_name := row_name r; row_price := row_price r;
     row_value := row_value r; row_subtotal := row_subtotal r;
     row_id := row_id r; row_change := row_change r; row_click := Some k |}.

(** Lines 209-237: rows, totals and the listeners of the quantity inputs. *)
Definition cart_filled (items : list CartLine) (p : CartPage) : CartPage :=
  let '(subtotal, rows) := foldl row_step (Fin 0, cartItemsContainer p) items in
  {| cartItemsContainer := listen_change <$> rows;
     cartSubtotalElement := (λ _, Ksh subtotal) <$> cartSubtotalElement p;
     cartTotalElement := (λ _, Ksh subtotal) <$> cartTotalElement p;
     checkoutBtn := (λ _, false) <$> checkoutBtn p;
     emptyCartMessage := emptyCartMessage p;
     cartTotalContainer := cartTotalContainer p;
     removeModal := removeModal p |}.

(** Lines 240-272: a fresh [productIdToRemove], holding [null], and the
    listeners that close over it.  Nothing happens on a page without the
    dialog. *)
Definition cart_bind_modal (p : CartPage) : CartPage :=
  match removeModal p with
  | None => p
  | Some m =>
      let k := length (closures m) in
      {| cartItemsContainer := listen_click k <$> cartItemsContainer p;
         cartSubtotalElement := cartSubtotalElement p;
         cartTotalElement := cartTotalElement p; checkoutBtn := checkoutBtn p;
         emptyCartMessage := emptyCartMessage p;
         cartTotalContainer := cartTotalContainer p;
         removeModal := Some {| modal_show := modal_show m;
                                closures := closures m ++ [None] |} |}
  end.

(** [initCartPage], lines 185-273. *)
Definition initCartPage : JS unit :=
  w ← get_world;
  match cartPage w with
  | None => mret tt
  | Some _ =>
      cart ← getCart;
      modify (λ w, set_cartPage (set_cartItemsContainer [] <$> cartPage w) w);;
      if length_is_0 cart
      then modify (λ w, set_cartPage (cart_empty <$> cartPage w) w)
      else
        modify (λ w, set_cartPage (cart_show_totals <$> cartPage w) w);;
        items ← array_method cart;
        modify (λ w, set_cartPage (cart_filled items <$> cartPage w) w);;
        modify (λ w, set_cartPage (cart_bind_modal <$> cartPage w) w)
  end.

(** [updateQuantity], lines 105-117. *)
Definition updateQuantity (productId : string) (quantity : Number) : JS unit :=
  cart ← getCart;
  cart' ←
    (if js_lt quantity (Fin 1)
     then
       items ← array_method cart;
       mret (filter (λ item, item_id item ≠ productId) items)
     else
       items ← array_method cart;
       mret match list_find (λ item, item_id item = productId) items with
            | Some (i, item) => <[i := set_quantity (VNumber quantity) item]> items
            | None => items
            end);
  saveCart cart';;
  initCartPage.

(** [removeItemFromCart], lines 123-129. *)
Definition removeItemFromCart (productId : string) : JS unit :=
  cart ← getCart;
  items ← array_method cart;
  saveCart (filter (λ item, item_id item ≠ productId) items);;
  initCartPage;;
  showToast "Item removed from cart."%string.

(** The handler of [DOMContentLoaded], lines 277-279. *)
Definition onDOMContentLoaded : JS unit :=
  updateCartCount;;
  initCartPage;;
  initCheckoutPage.

(** ** The removal dialog and the listeners *)

(** [parseInt(s, 10)]: leading white space, a sign, then the longest run
    of decimal digits; [NaN] when there is none.  Only the ASCII white
    space is skipped, and the digits are read exactly: [parseInt] rounds
    to a double, so the two agree when the result is a safe integer. *)
Definition is_white_space (c : ascii) : bool :=
  match c with
  | " "%char | "009"%char | "010"%char | "011"%char | "012"%char | "013"%char => true
  | _ => false
  end.

Fixpoint trim_start (s : string) : string :=
  match s with
  | String c s' => if is_white_space c then trim_start s' else s
  | EmptyString => s
  end.

Definition digit_value (c : ascii) : option Z :=
  let n := Z.of_N (Ascii.N_of_ascii c) in
  if (48 <=? n) && (n <=? 57) then Some (n - 48) else None.

Fixpoint digits_prefix (s : string) (acc : option Z) : option Z :=
  match s with
  | String c s' =>
      match digit_value c with
      | Some d => digits_prefix s' (Some (10 * default 0 acc + d))
      | None => acc
      end
  | EmptyString => acc
  end.

Definition parseInt10 (s : string) : Number :=
  let '(sign, digits) :=
    match trim_start s with
    | String "-"%char s' => (-1, s')
    | String "+"%char s' => (1, s')
    | s' => (1, s')
    end in
  match digits_prefix digits None with
  | Some n => Fin (sign * n)
  | None => NaN
  end.

Definition modify_modal (f : Modal → Modal) : JS unit :=
  modify (λ w, set_cartPage
    ((λ p, set_removeModal (f <$> removeModal p) p) <$> cartPage w) w).

(** [openRemoveModal] of activation [k], lines 248-251. *)
Definition openRemoveModal (k : nat) (productId : string) : JS unit :=
  modify_modal (λ m,
    {| modal_show := true; closures := <[k := Some productId]> (closures m) |}).

(** [closeRemoveModal] of activation [k], lines 253-256. *)
Definition closeRemoveModal (k : nat) : JS unit :=
  modify_modal (λ m,
    {| modal_show := false; closures := <[k := None]> (closures m) |}).

(** The variable [productIdToRemove] of activation [k]. *)
Definition productIdToRemove (k : nat) (w : World) : option string :=
  p ← cartPage w; m ← removeModal p; default None (closures m !! k).

(** A string is truthy unless it is empty; [null] is falsy. *)
Definition truthy (v : option string) : bool :=
  match v with
  | Some s => negb (String.eqb s "")
  | None => false
  end.

(** The click listener that activation [k] added to the confirm button,
    lines 264-269. *)
Definition confirm_listener (k : nat) : JS unit :=
  w ← get_world;
  (if truthy (productIdToRemove k w)
   then removeItemFromCart (default ""%string (productIdToRemove k w))
   else mret tt);;
  closeRemoveModal k.

(** The activations whose listeners sit on the buttons of the dialog. *)
Definition activations (w : World) : list nat :=
  match cartPage w ≫= removeModal with
  | Some m => seq 0 (length (closures m))
  | None => []
  end.

(** The listeners of one button run in the order they were added; the
    list is fixed when the event is dispatched, and an exception in one
    listener does not keep the others from running. *)
Definition run_listeners (listener : nat → JS unit) (w : World) : World :=
  foldl (λ w k, world_after (listener k w)) w (activations w).

Inductive Event :=
| Change (row : nat) (value : string)   (* the quantity input of a row *)
| ClickRemove (row : nat)               (* the remove button of a row *)
| ClickConfirm
| ClickCancel
| ClickClose.

Definition rows (w : World) : list Row :=
  match cartPage w with
  | Some p => cartItemsContainer p
  | None => []
  end.

(** What the page does with an event. *)
Definition dispatch (e : Event) (w : World) : World :=
  match e with
  | Change row value =>
      match rows w !! row with
      | Some r =>
          if row_change r
          then world_after (updateQuantity (row_id r) (parseInt10 value) w)
          else w
      | None => w
      end
  | ClickRemove row =>
      match rows w !! row with
      | Some r =>
          match row_click r with
          | Some k => world_after (openRemoveModal k (row_id r) w)
          | None => w
          end
      | None => w
      end
  | ClickConfirm => run_listeners confirm_listener w
  | ClickCancel => run_listeners closeRemoveModal w
  | ClickClose => run_listeners closeRemoveModal w
  end.

Definition dispatch_all (es : list Event) (w : World) : World :=
  foldl (λ w e, dispatch e w) w es.

(** * Properties *)

(** ** Vocabulary of the statements *)

(** The text under the cart key. *)
Definition stored (w : World) : option StoredText :=
  nassimStitchesCart (localStorage w).

(** [cart] is what a load yields in [w]. *)
Definition persisted (w : World) (cart : list CartLine) : Prop :=
  getCart w = Returns (CartArray cart) w.

(** What a line looks like after it went through the store. *)
Definition reload (item : CartLine) : CartLine :=
  parse_line (stringify_line item).

(** A line the store gives back as it was: its quantity is not [NaN]. *)
Definition storable (item : CartLine) : Prop :=
  item_quantity item ≠ VNumber NaN.

(** The quantity of a line as an integer; [null] counts as [0]. *)
Definition quantity_Z (item : CartLine) : Z :=
  match item_quantity item with
  | VNumber (Fin z) => z
  | _ => 0
  end.

(** The sum of the quantities of all lines. *)
Definition sum_quantity (cart : list CartLine) : Z :=
  foldr (λ item acc, quantity_Z item + acc) 0 cart.

(** The sum of price times quantity over all lines. *)
Definition sum_price (cart : list CartLine) : Z :=
  foldr (λ item acc, item_price item * quantity_Z item + acc) 0 cart.

(** No line of [cart] has the id. *)
Definition no_line (productId : string) (cart : list CartLine) : Prop :=
  Forall (λ item, item_id item ≠ productId) cart.


(** The world with another text under the cart key. *)
Definition with_stored (text : option StoredText) (w : World) : World :=
  set_localStorage
    {| nassimStitchesCart := text;
       orderDetails := orderDetails (localStorage w) |} w.

(** The world right after [saveCart cart]. *)
Definition saved (cart : list CartLine) (w : World) : World :=
  set_cartCountElements
    (show_count (foldl add_quantity (Fin 0) (reload <$> cart)) <$> cartCountElements w)
    (with_stored (Some (JSON_stringify cart)) w).

(** The array [addToCart] hands to [saveCart]. *)
Definition added (product : Product) (items : list CartLine) : list CartLine :=
  match list_find (λ item, item_id item = product_id product) items with
  | Some (i, existingItem) => <[i := increment_quantity existingItem]> items
  | None => items ++ [new_line product]
  end.

(** The array [updateQuantity] hands to [saveCart]. *)
Definition requantified (productId : string) (quantity : Number)
    (items : list CartLine) : list CartLine :=
  if js_lt quantity (Fin 1)
  then filter (λ item, item_id item ≠ productId) items
  else match list_find (λ item, item_id item = productId) items with
       | Some (i, item) => <[i := set_quantity (VNumber quantity) item]> items
       | None => items
       end.

(** What [initCartPage] makes of the cart page when the load yields [cart]. *)
Definition render_cart (cart : list CartLine) (p : CartPage) : CartPage :=
  match cart with
  | [] => cart_empty (set_cartItemsContainer [] p)
  | _ => cart_bind_modal (cart_filled cart (cart_show_totals (set_cartItemsContainer [] p)))
  end.

(** What [initCheckoutPage] makes of the checkout page. *)
Definition render_checkout (cart : list CartLine) (p : CheckoutPage) : CheckoutPage :=
  match cart with
  | [] => checkout_empty (set_summaryContainer [] p)
  | _ => checkout_filled cart (set_summaryContainer [] p)
  end.

(** The world after [initCartPage] when the load yields [cart]. *)
Definition rendered (cart : list CartLine) (w : World) : World :=
  set_cartPage (render_cart cart <$> cartPage w) w.

(** The world after [showToast message]. *)
Definition toasted (message : string) (w : World) : World :=
  match toastContainer w with
  | None => w
  | Some toasts => set_toastContainer (Some (toasts ++ [message])) w
  end.

(** The ids of the lines, in order. *)
Definition ids (cart : list CartLine) : list string := item_id <$> cart.

(** A row of the table shows a line of the cart. *)
Definition shows_line (r : Row) (item : CartLine) : Prop :=
  row_id r = item_id item ∧ row_name r = item_name item ∧
  row_img r = item_img item ∧ row_price r = item_price item ∧
  row_value r = item_quantity item ∧
  row_subtotal r = Fin (item_price item * quantity_Z item).

(** The badges of [w'] are those of [w] after the count of [cart] was
    shown on them. *)
Definition badges_show (cart : list CartLine) (w w' : World) : Prop :=
  cartCountElements w'
  = show_count (Fin (sum_quantity cart)) <$> cartCountElements w.

(** If [w] has the cart table, its rows in [w'] show the lines of [cart],
    one by one. *)
Definition cart_page_shows (cart : list CartLine) (w w' : World) : Prop :=
  match cartPage w with
  | Some _ =>
      ∃ cp', cartPage w' = Some cp' ∧
        Forall2 shows_line (cartItemsContainer cp') cart
  | None => cartPage w' = None
  end.

(** The [productIdToRemove] variables of the dialog, oldest first. *)
Definition pending (w : World) : list (option string) :=
  match cartPage w ≫= removeModal with
  | Some m => closures m
  | None => []
  end.

(** The dialog is on the page and shown. *)
Definition modal_shown (w : World) : bool :=
  match cartPage w ≫= removeModal with
  | Some m => modal_show m
  | None => false
  end.

(** The ids that the confirm listeners of the activations [ks] find in
    their variables and take for true. *)
Definition targets (ks : list nat) (w : World) : list string :=
  omap (λ k, match pending w !! k with
             | Some (Some productId) =>
                 if truthy (Some productId) then Some productId else None
             | _ => None
             end) ks.

(** The cart without the lines of the given ids. *)
Definition without (productIds : list string) (cart : list CartLine) : list CartLine :=
  foldl (λ c productId, filter (λ item, item_id item ≠ productId) c) cart productIds.

(** A quantity as the engine itself writes it: 1 or more, or [null]. *)
Definition valid_quantity (item : CartLine) : Prop :=
  item_quantity item = VNull ∨ ∃ z, 1 ≤ z ∧ item_quantity item = VNumber (Fin z).

(** A badge is in the state [updateCartCount] leaves it in for the count
    [total]: shown with the count, or hidden. *)
Definition badge_shows (total : Z) (el : Badge) : Prop :=
  if decide (0 < total)
  then textContent el = Count (Fin total) ∧ display el = DisplayBlock
  else display el = DisplayNone.

(** The table and the badges of [w] show the cart that a load yields. *)
Definition in_sync (w : World) (cart : list CartLine) : Prop :=
  persisted w cart
  ∧ Forall2 shows_line (rows w) cart
  ∧ Forall (badge_shows (sum_quantity cart)) (cartCountElements w).

(** The entry of the order summary for a line. *)
Definition summary_node (item : CartLine) : SummaryNode :=
  SummaryItem (item_name item) (item_quantity item)
    (Fin (item_price item * quantity_Z item)).


(** The page has the cart table, and table and badges show the stored
    cart. *)
Definition synced (w : World) : Prop :=
  is_Some (cartPage w) ∧ ∃ cart, in_sync w cart.


(** The characters that the HTML parser does not read back as they were
    written into the template of a row: a double quote ends an attribute
    value, an ampersand starts a character reference, a less-than sign
    starts a tag, NUL is replaced and a carriage return becomes a line
    feed. *)
Definition html_special (c : ascii) : bool :=
  match c with
  | "000"%char | "013"%char | "034"%char | "&"%char | "<"%char => true
  | _ => false
  end.

(** A string without such characters: the row built from the template
    holds it as it was written, and [dataset.id] gives it back. *)
Fixpoint html_plain (s : string) : bool :=
  match s with
  | EmptyString => true
  | String c s' => negb (html_special c) && html_plain s'
  end.

(** The strings of a line that the template of a row takes are plain. *)
Definition plain_line (item : CartLine) : Prop :=
  html_plain (item_id item) = true
  ∧ html_plain (item_name item) = true
  ∧ html_plain (item_img item) = true.

(** An integer that a double holds exactly, so that [parseInt] and the
    store give it back as it is. *)
Definition safe_integer (q : Z) : Prop := Z.abs q ≤ 2 ^ 53.

(** A string of ASCII characters: the white space [parseInt] skips in it
    is the white space [parseInt10] skips. *)
Fixpoint ascii_only (s : string) : bool :=
  match s with
  | EmptyString => true
  | String c s' => (Z.of_N (Ascii.N_of_ascii c) <? 128) && ascii_only s'
  end.

(** An event on which [dispatch] does what the page does: the value of a
    quantity input is ASCII and, when it reads as an integer, the integer
    is safe. *)
Definition safe_event (e : Event) : Prop :=
  match e with
  | Change _ value =>
      ascii_only value = true
      ∧ match parseInt10 value with
        | Fin q => safe_integer q
        | NaN => True
        end
  | _ => True
  end.

(** The cart loads and the strings of its lines are plain. *)
Definition plain_store (w : World) : Prop :=
  ∃ cart, persisted w cart ∧ Forall plain_line cart.


(** ** Worlds and products of the examples *)

Definition shirt : Product :=
  {| product_id := "p1"; product_name := "Shirt";
     product_price := 1500; product_img := "x" |}.

Definition dress : Product :=
  {| product_id := "p2"; product_name := "Dress";
     product_price := 2000; product_img := "y" |}.

(** A cart page with the dialog, one badge and the toast container;
    nothing is stored yet. *)
Definition fresh_cart_page : World :=
  {| localStorage := {| nassimStitchesCart := None; orderDetails := None |};
     cartCountElements := [{| textContent := Markup "0"; display := DisplayUnset |}];
     toastContainer := Some [];
     cartPage := Some
       {| cartItemsContainer := [];
          cartSubtotalElement := Some (Markup "Ksh 0");
          cartTotalElement := Some (Markup "Ksh 0");
          checkoutBtn := Some false;
          emptyCartMessage := Some DisplayUnset;
          cartTotalContainer := Some DisplayUnset;
          removeModal := Some {| modal_show := false; closures := [] |} |};
     checkoutPage := None |}.

(** The cart page, loaded while the store holds a shirt and a dress. *)
Definition loaded_cart_page : World :=
  world_after (onDOMContentLoaded
    (with_stored (Some (JSON_stringify [new_line shirt; new_line dress]))
       fresh_cart_page)).

(** A page that has the cart table and the order summary. *)
Definition fresh_both_pages : World :=
  set_checkoutPage (Some
    {| summaryContainer := [];
       subtotalEl := Some (Markup "Ksh 0");
       totalEl := Some (Markup "Ksh 0");
       placeOrderBtn := Some {| disabled := false; btn_disabled := false |};
       orderSummaryInput := Some (RawValue "") |}) fresh_cart_page.

(** That page, loaded while the store holds one shirt. *)
Definition shirt_on_both_pages : World :=
  world_after (onDOMContentLoaded
    (with_stored (Some (JSON_stringify [new_line shirt])) fresh_both_pages)).

(** The same after the shirt was removed through the dialog. *)
Definition shirt_removed : World :=
  dispatch_all [ClickRemove 0; ClickConfirm] shirt_on_both_pages.

(** That page, loaded while nothing is stored. *)
Definition empty_on_both_pages : World :=
  world_after (onDOMContentLoaded fresh_both_pages).

(** The loaded cart page after this: the remove button of the shirt, a
    new quantity for the dress while the dialog is open, the remove button
    of the dress. *)
Definition two_requests : World :=
  dispatch_all [ClickRemove 0; Change 1 "2"; ClickRemove 1] loaded_cart_page.

(** ** The store *)

Lemma stringify_parse_line (j : JsonLine) : stringify_line (parse_line j) = j.
Proof. destruct j as [i n p g [q|]]; reflexivity. Qed.

Lemma reload_storable (item : CartLine) : storable item → reload item = item.
Proof.
  destruct item as [i n p g [[q|]|]]; unfold storable; simpl; intros H;
    [reflexivity | congruence | reflexivity].
Qed.

Lemma parse_line_storable (j : JsonLine) : storable (parse_line j).
Proof. destruct j as [i n p g [q|]]; unfold storable; simpl; congruence. Qed.

Lemma reload_storable_list (cart : list CartLine) :
  Forall storable cart → reload <$> cart = cart.
Proof.
  induction 1 as [|item cart Hitem _ IH]; [reflexivity|].
  rewrite fmap_cons, reload_storable, IH by assumption. reflexivity.
Qed.

Lemma reload_id (item : CartLine) : item_id (reload item) = item_id item.
Proof. reflexivity. Qed.

Lemma parse_stringify (cart : list CartLine) :
  JSON_parse_or_empty (Some (JSON_stringify cart)) = inr (CartArray (reload <$> cart)).
Proof.
  unfold JSON_stringify; simpl. rewrite <- list_fmap_compose. reflexivity.
Qed.

Lemma persisted_cases (w : World) (cart : list CartLine) :
  persisted w cart →
  (cart = [] ∧ (stored w = None ∨ stored w = Some JsonFalsy))
  ∨ ∃ lines, stored w = Some (JsonArray lines) ∧ cart = parse_line <$> lines.
Proof.
  unfold persisted, getCart, stored.
  destruct (nassimStitchesCart (localStorage w)) as [[lines| | |]|]; simpl;
    intros H; inversion H; subst; eauto.
Qed.

Lemma persisted_storable (w : World) (cart : list CartLine) :
  persisted w cart → Forall storable cart.
Proof.
  intros [[-> _]|(lines & _ & ->)]%persisted_cases; [constructor|].
  apply Forall_fmap, Forall_true, parse_line_storable.
Qed.

Lemma persisted_stringify (w : World) (cart : list CartLine) :
  stored w = Some (JSON_stringify cart) → persisted w (reload <$> cart).
Proof.
  unfold persisted, getCart, stored. intros ->. rewrite parse_stringify. reflexivity.
Qed.

Lemma persisted_inj (w : World) (c1 c2 : list CartLine) :
  persisted w c1 → persisted w c2 → c1 = c2.
Proof. unfold persisted. congruence. Qed.

(** ** Calls *)

Lemma bind_Returns {A B} (m : JS A) (f : A → JS B) (w w' : World) (a : A) :
  m w = Returns a w' → (m ≫= f) w = f a w'.
Proof. unfold mbind, JS_bind. intros ->. reflexivity. Qed.

Lemma bind_Throws {A B} (m : JS A) (f : A → JS B) (w w' : World) (e : Exn) :
  m w = Throws e w' → (m ≫= f) w = Throws e w'.
Proof. unfold mbind, JS_bind. intros ->. reflexivity. Qed.

Lemma updateCartCount_persisted (w : World) (cart : list CartLine) :
  persisted w cart →
  updateCartCount w = Returns tt
    (set_cartCountElements
       (show_count (foldl add_quantity (Fin 0) cart) <$> cartCountElements w) w).
Proof.
  intros H. unfold updateCartCount.
  rewrite (bind_Returns _ _ _ _ _ H). reflexivity.
Qed.

Lemma saveCart_saved (cart : list CartLine) (w : World) :
  saveCart cart w = Returns tt (saved cart w).
Proof.
  unfold saveCart.
  erewrite bind_Returns by reflexivity.
  erewrite updateCartCount_persisted
    by (apply persisted_stringify; reflexivity).
  reflexivity.
Qed.

Lemma stored_saved (cart : list CartLine) (w : World) :
  stored (saved cart w) = Some (JSON_stringify cart).
Proof. reflexivity. Qed.

Lemma persisted_saved (cart : list CartLine) (w : World) :
  persisted (saved cart w) (reload <$> cart).
Proof. apply persisted_stringify, stored_saved. Qed.

(** ** The calls on a cart that loads *)

Lemma set_cartPage_id (w : World) : set_cartPage (cartPage w) w = w.
Proof. destruct w; reflexivity. Qed.

Lemma set_checkoutPage_id (w : World) : set_checkoutPage (checkoutPage w) w = w.
Proof. destruct w; reflexivity. Qed.

Lemma initCartPage_persisted (w : World) (cart : list CartLine) :
  persisted w cart → initCartPage w = Returns tt (rendered cart w).
Proof.
  intros H. unfold initCartPage, rendered.
  erewrite bind_Returns by reflexivity.
  destruct (cartPage w) as [p|] eqn:Hp.
  - rewrite (bind_Returns _ _ _ _ _ H).
    destruct cart as [|item cart]; unfold mbind, JS_bind, modify; simpl;
      rewrite Hp; reflexivity.
  - simpl. rewrite <- Hp, set_cartPage_id. reflexivity.
Qed.

Lemma initCheckoutPage_persisted (w : World) (cart : list CartLine) :
  persisted w cart →
  initCheckoutPage w = Returns tt
    (set_checkoutPage (render_checkout cart <$> checkoutPage w) w).
Proof.
  intros H. unfold initCheckoutPage.
  erewrite bind_Returns by reflexivity.
  destruct (checkoutPage w) as [p|] eqn:Hp.
  - rewrite (bind_Returns _ _ _ _ _ H).
    destruct cart as [|item cart]; unfold mbind, JS_bind, modify; simpl;
      rewrite Hp; reflexivity.
  - simpl. rewrite <- Hp, set_checkoutPage_id. reflexivity.
Qed.

Lemma persisted_rendered (cart cart' : list CartLine) (w : World) :
  persisted w cart → persisted (rendered cart' w) cart.
Proof. unfold persisted, getCart. simpl. intros H. destruct (JSON_parse_or_empty _); congruence. Qed.

Lemma persisted_toasted (cart : list CartLine) (message : string) (w : World) :
  persisted w cart → persisted (toasted message w) cart.
Proof.
  unfold persisted, getCart, toasted. destruct (toastContainer w); simpl; [|done].
  intros H. destruct (JSON_parse_or_empty _); congruence.
Qed.

Lemma addToCart_persisted (w : World) (cart : list CartLine) (product : Product) :
  persisted w cart →
  addToCart product w = Returns tt
    (toasted (String.append (product_name product) " has been added to your cart!")
       (saved (added product cart) w)).
Proof.
  intros H. unfold addToCart.
  rewrite (bind_Returns _ _ _ _ _ H). simpl.
  erewrite bind_Returns by reflexivity.
  erewrite bind_Returns by apply saveCart_saved.
  reflexivity.
Qed.

Lemma updateQuantity_persisted (w : World) (cart : list CartLine)
    (productId : string) (quantity : Number) :
  persisted w cart →
  updateQuantity productId quantity w = Returns tt
    (rendered (reload <$> requantified productId quantity cart)
       (saved (requantified productId quantity cart) w)).
Proof.
  intros H. unfold updateQuantity.
  rewrite (bind_Returns _ _ _ _ _ H).
  erewrite (bind_Returns _ _ w w (requantified productId quantity cart))
    by (unfold requantified; destruct (js_lt quantity (Fin 1)); reflexivity).
  erewrite bind_Returns by apply saveCart_saved.
  apply initCartPage_persisted, persisted_saved.
Qed.

Lemma removeItemFromCart_persisted (w : World) (cart : list CartLine)
    (productId : string) :
  persisted w cart →
  removeItemFromCart productId w = Returns tt
    (toasted "Item removed from cart."
       (rendered (reload <$> filter (λ item, item_id item ≠ productId) cart)
          (saved (filter (λ item, item_id item ≠ productId) cart) w))).
Proof.
  intros H. unfold removeItemFromCart.
  rewrite (bind_Returns _ _ _ _ _ H). simpl.
  erewrite bind_Returns by reflexivity.
  erewrite bind_Returns by apply saveCart_saved.
  erewrite bind_Returns by apply initCartPage_persisted, persisted_saved.
  reflexivity.
Qed.

Lemma clearCart_returns (w : World) :
  clearCart w = Returns tt
    (set_cartCountElements (show_count (Fin 0) <$> cartCountElements w)
       (set_localStorage {| nassimStitchesCart := None; orderDetails := None |} w)).
Proof. reflexivity. Qed.

(** ** Arrays of lines *)

Lemma find_first (productId : string) (l1 l2 : list CartLine) (line : CartLine) :
  no_line productId l1 → item_id line = productId →
  list_find (λ item, item_id item = productId) (l1 ++ line :: l2)
  = Some (length l1, line).
Proof.
  intros Hl1 Hline. apply list_find_Some. split_and!.
  - by rewrite list_lookup_middle.
  - done.
  - intros j y Hj Hlt. rewrite lookup_app_l in Hj by done.
    by eapply (Forall_lookup_1 _ _ _ _ Hl1).
Qed.

Lemma find_none (productId : string) (cart : list CartLine) :
  no_line productId cart →
  list_find (λ item, item_id item = productId) cart = None.
Proof. intros H. by apply list_find_None. Qed.

Lemma insert_middle (l1 l2 : list CartLine) (line line' : CartLine) :
  <[length l1 := line']> (l1 ++ line :: l2) = l1 ++ line' :: l2.
Proof.
  rewrite <- (Nat.add_0_r (length l1)). by rewrite insert_app_r.
Qed.


Lemma added_new (product : Product) (cart : list CartLine) :
  no_line (product_id product) cart →
  added product cart = cart ++ [new_line product].
Proof. intros H. unfold added. by rewrite find_none. Qed.

Lemma requantified_below (productId : string) (z : Z) (cart : list CartLine) :
  z < 1 →
  requantified productId (Fin z) cart
  = filter (λ item, item_id item ≠ productId) cart.
Proof.
  intros Hz. unfold requantified. simpl.
  by rewrite (proj2 (Z.ltb_lt z 1)).
Qed.

Lemma requantified_existing (productId : string) (quantity : Number)
    (l1 l2 : list CartLine) (line : CartLine) :
  js_lt quantity (Fin 1) = false →
  no_line productId l1 → item_id line = productId →
  requantified productId quantity (l1 ++ line :: l2)
  = l1 ++ set_quantity (VNumber quantity) line :: l2.
Proof.
  intros Hq Hl1 Hline. unfold requantified.
  rewrite Hq, find_first by done. apply insert_middle.
Qed.

Lemma requantified_absent (productId : string) (quantity : Number)
    (cart : list CartLine) :
  js_lt quantity (Fin 1) = false → no_line productId cart →
  requantified productId quantity cart = cart.
Proof.
  intros Hq H. unfold requantified. by rewrite Hq, find_none.
Qed.

Lemma storable_increment (item : CartLine) :
  storable item →
  increment_quantity item = set_quantity (VNumber (Fin (quantity_Z item + 1))) item.
Proof.
  destruct item as [i n p g [[q|]|]]; unfold storable; simpl; intros H;
    [reflexivity | congruence | reflexivity].
Qed.

Lemma storable_set_quantity (z : Z) (item : CartLine) :
  storable (set_quantity (VNumber (Fin z)) item).
Proof. unfold storable; simpl; congruence. Qed.

Lemma storable_added (product : Product) (cart : list CartLine) :
  Forall storable cart → Forall storable (added product cart).
Proof.
  intros H. unfold added.
  destruct (list_find _ cart) as [[i existingItem]|] eqn:Hfind.
  - apply list_find_Some in Hfind as (Hi & _ & _).
    apply Forall_insert; [done|].
    rewrite storable_increment by by eapply (Forall_lookup_1 _ _ _ _ H).
    apply storable_set_quantity.
  - apply Forall_app. split; [done|]. repeat constructor.
    unfold storable; simpl; congruence.
Qed.

Lemma storable_filter (P : CartLine → Prop) `{!∀ x, Decision (P x)}
    (cart : list CartLine) :
  Forall storable cart → Forall storable (filter P cart).
Proof.
  rewrite !Forall_forall. intros Hall x [_ Hx]%list_elem_of_filter. by apply Hall.
Qed.

Lemma ids_reload (cart : list CartLine) : ids (reload <$> cart) = ids cart.
Proof. unfold ids. rewrite <- list_fmap_compose. reflexivity. Qed.

Lemma ids_set_at (cart : list CartLine) (i : nat) (item item' : CartLine) :
  cart !! i = Some item → item_id item' = item_id item →
  ids (<[i := item']> cart) = ids cart.
Proof.
  intros Hi Hid. unfold ids. rewrite list_fmap_insert.
  apply list_insert_id. by rewrite list_lookup_fmap, Hi, Hid.
Qed.

Lemma NoDup_ids_added (product : Product) (cart : list CartLine) :
  NoDup (ids cart) → NoDup (ids (added product cart)).
Proof.
  intros H. unfold added.
  destruct (list_find _ cart) as [[i existingItem]|] eqn:Hfind.
  - apply list_find_Some in Hfind as (Hi & _ & _).
    by rewrite (ids_set_at _ _ existingItem).
  - apply list_find_None in Hfind. unfold ids. rewrite fmap_app.
    apply NoDup_app. split_and!; [done| |apply NoDup_singleton].
    intros x (item & -> & Hitem)%list_elem_of_fmap Hx%list_elem_of_singleton.
    by eapply (proj1 (Forall_forall _ _) Hfind).
Qed.

Lemma NoDup_ids_filter (P : CartLine → Prop) `{!∀ x, Decision (P x)}
    (cart : list CartLine) :
  NoDup (ids cart) → NoDup (ids (filter P cart)).
Proof.
  intros Hnodup. eapply sublist_NoDup; [exact Hnodup|apply fmap_sublist, sublist_filter].
Qed.

Lemma NoDup_ids_requantified (productId : string) (quantity : Number)
    (cart : list CartLine) :
  NoDup (ids cart) → NoDup (ids (requantified productId quantity cart)).
Proof.
  intros H. unfold requantified. destruct (js_lt quantity (Fin 1)).
  - by apply NoDup_ids_filter.
  - destruct (list_find _ cart) as [[i item]|] eqn:Hfind; [|done].
    apply list_find_Some in Hfind as (Hi & _ & _).
    by rewrite (ids_set_at _ _ item).
Qed.

Lemma persisted_saved_storable (cart : list CartLine) (w : World) :
  Forall storable cart → persisted (saved cart w) cart.
Proof.
  intros H. rewrite <- (reload_storable_list cart H) at 2. apply persisted_saved.
Qed.

Lemma addToCart_step (w : World) (cart : list CartLine) (product : Product) :
  persisted w cart →
  ∃ w', addToCart product w = Returns tt w' ∧ persisted w' (added product cart).
Proof.
  intros H. rewrite (addToCart_persisted w cart) by done.
  eexists; split; [done|].
  apply persisted_toasted, persisted_saved_storable, storable_added.
  by eapply persisted_storable.
Qed.


(** ** The cart engine *)



Lemma updateQuantity_step (w : World) (cart : list CartLine)
    (productId : string) (quantity : Number) :
  persisted w cart →
  ∃ w', updateQuantity productId quantity w = Returns tt w' ∧
    stored w' = Some (JSON_stringify (requantified productId quantity cart)) ∧
    orderDetails (localStorage w') = orderDetails (localStorage w) ∧
    persisted w' (reload <$> requantified productId quantity cart).
Proof.
  intros H. rewrite (updateQuantity_persisted w cart) by done.
  eexists; split_and!; [done..|]. apply persisted_rendered, persisted_saved.
Qed.

Lemma removeItemFromCart_step (w : World) (cart : list CartLine)
    (productId : string) :
  persisted w cart →
  ∃ w', removeItemFromCart productId w = Returns tt w' ∧
    persisted w' (filter (λ item, item_id item ≠ productId) cart).
Proof.
  intros H. rewrite (removeItemFromCart_persisted w cart) by done.
  eexists; split; [done|].
  apply persisted_toasted, persisted_rendered, persisted_saved_storable.
  by eapply storable_filter, persisted_storable.
Qed.

Lemma no_line_filter (productId : string) (cart : list CartLine) :
  no_line productId (filter (λ item, item_id item ≠ productId) cart).
Proof.
  apply Forall_forall. by intros x [Hx _]%list_elem_of_filter.
Qed.

Lemma stringify_parsed (lines : list JsonLine) :
  JSON_stringify (parse_line <$> lines) = JsonArray lines.
Proof.
  unfold JSON_stringify. f_equal. rewrite <- list_fmap_compose.
  rewrite <- (list_fmap_id lines) at 2.
  apply list_fmap_ext. intros _ j _. apply stringify_parse_line.
Qed.

(** C3.  On a cart that loads, [updateQuantity] with a quantity below 1
    returns and leaves the cart without any line of that id, the other
    lines in their order; with a quantity of 1 or more it overwrites the
    quantity of the first line of that id, whose other fields and all
    other lines stay as they were; and when no line has the id and the
    quantity is 1 or more, the next load yields the same cart, and a cart
    key that held an array holds the same text afterwards. *)
Theorem updateQuantity_removes_or_overwrites (w : World) (cart : list CartLine)
    (productId : string) (quantity : Z) :
  persisted w cart →
  ∃ w', updateQuantity productId (Fin quantity) w = Returns tt w' ∧
    (quantity < 1 →
       persisted w' (filter (λ item, item_id item ≠ productId) cart) ∧
       no_line productId (filter (λ item, item_id item ≠ productId) cart))
    ∧ (1 ≤ quantity →
       ∀ l1 line l2,
         cart = l1 ++ line :: l2 → no_line productId l1 → item_id line = productId →
         persisted w'
           (l1 ++ {| item_id := item_id line; item_name := item_name line;
                     item_price := item_price line; item_img := item_img line;
                     item_quantity := VNumber (Fin quantity) |}
               :: l2))
    ∧ (1 ≤ quantity → no_line productId cart →
       persisted w' cart ∧
       ∀ lines, stored w = Some (JsonArray lines) → localStorage w' = localStorage w).
Proof.
  intros Hw.
  destruct (updateQuantity_step w cart productId (Fin quantity) Hw)
    as (w' & Hcall & Hstored & Horder & Hw').
  pose proof (persisted_storable _ _ Hw) as Hstorable.
  exists w'. split_and!; [done|..].
  - intros Hq. split; [|apply no_line_filter].
    rewrite requantified_below, reload_storable_list in Hw';
      [done|by apply storable_filter|done].
  - intros Hq l1 line l2 -> Hl1 Hline.
    rewrite requantified_existing, reload_storable_list in Hw'; [done| |simpl|done..].
    + apply Forall_app in Hstorable as [H1 H2]. inversion H2; subst.
      apply Forall_app. split; [done|]. constructor; [|done].
      apply storable_set_quantity.
    + by apply Z.ltb_ge.
  - intros Hq Hcart.
    assert (js_lt (Fin quantity) (Fin 1) = false) as Hlt by by apply Z.ltb_ge.
    rewrite requantified_absent in Hstored by done.
    rewrite requantified_absent in Hw' by done.
    rewrite reload_storable_list in Hw' by done. split; [done|].
    intros lines Hlines.
    assert (cart = parse_line <$> lines) as ->.
    { apply (persisted_inj w); [exact Hw|]. unfold persisted, getCart.
      unfold stored in Hlines. by rewrite Hlines. }
    rewrite stringify_parsed in Hstored. unfold stored in *.
    destruct (localStorage w), (localStorage w'); simpl in *. congruence.
Qed.

Lemma updateQuantity_removes_or_overwrites_witness :
  persisted loaded_cart_page [new_line shirt; new_line dress]
  ∧ ∃ w', updateQuantity "p2" (Fin 5) loaded_cart_page = Returns tt w' ∧
      persisted w'
        [{| item_id := "p1"; item_name := "Shirt"; item_price := 1500;
            item_img := "x"; item_quantity := VNumber (Fin 1) |};
         {| item_id := "p2"; item_name := "Dress"; item_price := 2000;
            item_img := "y"; item_quantity := VNumber (Fin 5) |}].
Proof.
  split; [reflexivity|].
  destruct (updateQuantity_removes_or_overwrites loaded_cart_page
              [new_line shirt; new_line dress] "p2" 5 eq_refl)
    as (w' & Hcall & _ & Hover & _).
  exists w'. split; [exact Hcall|].
  apply (Hover ltac:(discriminate) [new_line shirt] (new_line dress) []);
    [reflexivity | | reflexivity].
  apply Forall_singleton. discriminate.
Defined.

(** C4.  Starting from a cart that loads and has at most one line per id,
    each of [addToCart], [updateQuantity], [removeItemFromCart] and
    [clearCart] returns and leaves a cart that has at most one line per
    id. *)
Theorem one_line_per_id_preserved (w : World) (cart : list CartLine) :
  persisted w cart → NoDup (ids cart) →
  (∀ product, ∃ w' cart',
      addToCart product w = Returns tt w' ∧ persisted w' cart' ∧ NoDup (ids cart'))
  ∧ (∀ productId quantity, ∃ w' cart',
      updateQuantity productId quantity w = Returns tt w' ∧
      persisted w' cart' ∧ NoDup (ids cart'))
  ∧ (∀ productId, ∃ w' cart',
      removeItemFromCart productId w = Returns tt w' ∧
      persisted w' cart' ∧ NoDup (ids cart'))
  ∧ (∃ w' cart',
      clearCart w = Returns tt w' ∧ persisted w' cart' ∧ NoDup (ids cart')).
Proof.
  intros Hw Hnodup. split_and!.
  - intros product.
    destruct (addToCart_step w cart product Hw) as (w' & Hcall & Hw').
    exists w', (added product cart). split_and!; [done..|].
    by apply NoDup_ids_added.
  - intros productId quantity.
    destruct (updateQuantity_step w cart productId quantity Hw)
      as (w' & Hcall & _ & _ & Hw').
    exists w', (reload <$> requantified productId quantity cart).
    split_and!; [done..|]. rewrite ids_reload. by apply NoDup_ids_requantified.
  - intros productId.
    destruct (removeItemFromCart_step w cart productId Hw) as (w' & Hcall & Hw').
    exists w', (filter (λ item, item_id item ≠ productId) cart).
    split_and!; [done..|]. by apply NoDup_ids_filter.
  - eexists _, []. split_and!; [apply clearCart_returns|reflexivity|constructor].
Qed.

Lemma one_line_per_id_preserved_witness :
  persisted loaded_cart_page [new_line shirt; new_line dress]
  ∧ NoDup (ids [new_line shirt; new_line dress])
  ∧ ∃ w' cart', addToCart shirt loaded_cart_page = Returns tt w' ∧
       persisted w' cart' ∧ NoDup (ids cart').
Proof.
  assert (NoDup (ids [new_line shirt; new_line dress])) as Hnodup.
  { apply NoDup_cons. split; [|apply NoDup_singleton].
    intros Heq%list_elem_of_singleton. discriminate Heq. }
  assert (persisted loaded_cart_page [new_line shirt; new_line dress]) as Hw
    by reflexivity.
  split; [exact Hw|]. split; [exact Hnodup|].
  destruct (one_line_per_id_preserved loaded_cart_page
              [new_line shirt; new_line dress] Hw Hnodup) as (Hadd & _).
  exact (Hadd shirt).
Defined.

(** C1, as the script has it: a cart key holding text that is not JSON
    makes [getCart] and the three calls that load the cart raise a
    SyntaxError, and a key holding a JSON object makes [getCart] return
    that object and [addToCart] raise a TypeError. *)
Lemma getCart_raises_on_malformed_text :
  let corrupt := with_stored (Some NotJson) fresh_cart_page in
  let object := with_stored (Some JsonOther) fresh_cart_page in
  getCart corrupt = Throws SyntaxError corrupt
  ∧ addToCart shirt corrupt = Throws SyntaxError corrupt
  ∧ updateQuantity "p1" (Fin 2) corrupt = Throws SyntaxError corrupt
  ∧ removeItemFromCart "p1" corrupt = Throws SyntaxError corrupt
  ∧ getCart object = Returns CartOther object
  ∧ addToCart shirt object = Throws TypeError object.
Proof. repeat split. Qed.

Lemma absent_or_falsy_persisted (w : World) :
  stored w = None ∨ stored w = Some JsonFalsy → persisted w [].
Proof. unfold persisted, getCart, stored. by intros [-> | ->]. Qed.

(** C1, amended.  When the cart key is absent, or holds JSON text of a
    falsy value, [getCart] returns the empty array, and each of the four
    calls returns, with the very outcome it has when the key holds the
    text of the empty array. *)
Theorem absent_or_falsy_cart_is_empty (w : World) :
  stored w = None ∨ stored w = Some JsonFalsy →
  getCart w = Returns (CartArray []) w
  ∧ (∀ product, ∃ w',
       addToCart product w = Returns tt w' ∧
       addToCart product (with_stored (Some (JsonArray [])) w) = Returns tt w')
  ∧ (∀ productId quantity, ∃ w',
       updateQuantity productId quantity w = Returns tt w' ∧
       updateQuantity productId quantity (with_stored (Some (JsonArray [])) w)
       = Returns tt w')
  ∧ (∀ productId, ∃ w',
       removeItemFromCart productId w = Returns tt w' ∧
       removeItemFromCart productId (with_stored (Some (JsonArray [])) w)
       = Returns tt w')
  ∧ (∃ w',
       clearCart w = Returns tt w' ∧
       clearCart (with_stored (Some (JsonArray [])) w) = Returns tt w').
Proof.
  intros Hw%absent_or_falsy_persisted.
  assert (persisted (with_stored (Some (JsonArray [])) w) []) as Hempty
    by reflexivity.
  split_and!; [exact Hw|..].
  - intros product. eexists. split; [by apply addToCart_persisted|].
    by rewrite (addToCart_persisted _ []).
  - intros productId quantity. eexists. split; [by apply updateQuantity_persisted|].
    by rewrite (updateQuantity_persisted _ []).
  - intros productId. eexists. split; [by apply removeItemFromCart_persisted|].
    by rewrite (removeItemFromCart_persisted _ []).
  - eexists. split; [apply clearCart_returns|reflexivity].
Qed.

Lemma absent_or_falsy_cart_is_empty_witness :
  (stored fresh_cart_page = None ∨ stored fresh_cart_page = Some JsonFalsy)
  ∧ getCart fresh_cart_page = Returns (CartArray []) fresh_cart_page.
Proof.
  split; [left; reflexivity|].
  apply (absent_or_falsy_cart_is_empty fresh_cart_page). left; reflexivity.
Defined.

(** C8.  [clearCart] always returns; afterwards neither the cart key nor
    the order-details key exists (so the cart key does not hold the text
    of an empty array), a load yields the empty array, every badge is
    hidden with its text as it was, and the rest of the page is
    untouched. *)
Theorem clearCart_deletes_both_keys (w : World) :
  ∃ w', clearCart w = Returns tt w'
    ∧ nassimStitchesCart (localStorage w') = None
    ∧ orderDetails (localStorage w') = None
    ∧ stored w' ≠ Some (JsonArray [])
    ∧ getCart w' = Returns (CartArray []) w'
    ∧ cartCountElements w'
      = (λ el, {| textContent := textContent el; display := DisplayNone |})
          <$> cartCountElements w
    ∧ toastContainer w' = toastContainer w
    ∧ cartPage w' = cartPage w
    ∧ checkoutPage w' = checkoutPage w.
Proof.
  eexists. split; [apply clearCart_returns|]. split_and!; done.
Qed.

(** ** The badge *)

Lemma foldl_add_quantity (cart : list CartLine) (a : Z) :
  Forall storable cart →
  foldl add_quantity (Fin a) cart = Fin (a + sum_quantity cart).
Proof.
  intros H. revert a. induction H as [|item cart Hitem _ IH]; intros a.
  - simpl. by rewrite Z.add_0_r.
  - change (foldl add_quantity (Fin a) (item :: cart))
      with (foldl add_quantity (add_quantity (Fin a) item) cart).
    change (sum_quantity (item :: cart))
      with (quantity_Z item + sum_quantity cart).
    replace (add_quantity (Fin a) item) with (Fin (a + quantity_Z item)).
    + rewrite IH. f_equal. lia.
    + destruct item as [i n p g [[q|]|]]; unfold storable in Hitem; simpl in *;
        [done | congruence | done].
Qed.

Lemma sum_quantity_nonneg (cart : list CartLine) :
  Forall (λ item, 0 ≤ quantity_Z item) cart → 0 ≤ sum_quantity cart.
Proof. induction 1; simpl; lia. Qed.

(** C5.  On a cart that loads and whose quantities are not negative,
    [updateCartCount] returns and leaves as many badges as there were; a
    badge is hidden exactly when the sum of the quantities is 0; when the
    sum is not 0 the badge shows the sum and is displayed; when it is 0 the
    badge keeps the text it had. *)
Theorem updateCartCount_shows_sum (w : World) (cart : list CartLine) :
  persisted w cart →
  Forall (λ item, 0 ≤ quantity_Z item) cart →
  ∃ w', updateCartCount w = Returns tt w'
    ∧ length (cartCountElements w') = length (cartCountElements w)
    ∧ ∀ (i : nat) (el el' : Badge),
        cartCountElements w !! i = Some el →
        cartCountElements w' !! i = Some el' →
        (display el' = DisplayNone ↔ sum_quantity cart = 0)
        ∧ (sum_quantity cart ≠ 0 →
             textContent el' = Count (Fin (sum_quantity cart)) ∧
             display el' = DisplayBlock)
        ∧ (sum_quantity cart = 0 → textContent el' = textContent el).
Proof.
  intros Hw Hnonneg. pose proof (sum_quantity_nonneg cart Hnonneg) as Hsum.
  rewrite (updateCartCount_persisted w cart Hw).
  rewrite (foldl_add_quantity cart 0) by by eapply persisted_storable.
  rewrite Z.add_0_l.
  eexists. split; [done|]. simpl. split; [by rewrite length_fmap|].
  intros i el el' Hel. rewrite list_lookup_fmap, Hel. simpl.
  intros [= <-]. unfold show_count, js_gt, js_lt.
  destruct (Z.ltb_spec 0 (sum_quantity cart)); simpl.
  - split_and!; [split; [done|lia] | done | lia].
  - split_and!; [split; [lia|done] | lia | done].
Qed.

Lemma updateCartCount_shows_sum_witness :
  persisted loaded_cart_page [new_line shirt; new_line dress]
  ∧ Forall (λ item, 0 ≤ quantity_Z item) [new_line shirt; new_line dress]
  ∧ ∃ w', updateCartCount loaded_cart_page = Returns tt w'
      ∧ length (cartCountElements w') = length (cartCountElements loaded_cart_page).
Proof.
  assert (persisted loaded_cart_page [new_line shirt; new_line dress]) as Hw
    by reflexivity.
  assert (Forall (λ item, 0 ≤ quantity_Z item) [new_line shirt; new_line dress])
    as Hnonneg by (repeat constructor; discriminate).
  split; [exact Hw|]. split; [exact Hnonneg|].
  destruct (updateCartCount_shows_sum loaded_cart_page _ Hw Hnonneg)
    as (w' & Hcall & Hlen & _).
  exists w'. split; [exact Hcall | exact Hlen].
Defined.

(** ** The two renderers *)

Lemma item_subtotal_storable (item : CartLine) :
  storable item → item_subtotal item = Fin (item_price item * quantity_Z item).
Proof.
  destruct item as [i n p g [[q|]|]]; unfold storable; simpl; intros H;
    [reflexivity | congruence | reflexivity].
Qed.

Lemma foldl_row_step (items : list CartLine) (a : Z) (rows0 : list Row) :
  Forall storable items →
  foldl row_step (Fin a, rows0) items
  = (Fin (a + sum_price items), rows0 ++ (item_row <$> items)).
Proof.
  intros H. revert a rows0.
  induction H as [|item items Hitem _ IH]; intros a rows0.
  - simpl. by rewrite Z.add_0_r, app_nil_r.
  - change (foldl row_step (Fin a, rows0) (item :: items))
      with (foldl row_step
              (js_add (Fin a) (item_subtotal item), rows0 ++ [item_row item]) items).
    rewrite item_subtotal_storable by done. simpl js_add.
    rewrite IH, fmap_cons, <- app_assoc. simpl. do 2 f_equal. lia.
Qed.

Lemma foldl_summary_step (items : list CartLine) (a : Z)
    (nodes text : list SummaryNode) :
  Forall storable items →
  (foldl summary_step (Fin a, nodes, text) items).1.1 = Fin (a + sum_price items).
Proof.
  intros H. revert a nodes text.
  induction H as [|item items Hitem _ IH]; intros a nodes text.
  - simpl. by rewrite Z.add_0_r.
  - change (foldl summary_step (Fin a, nodes, text) (item :: items))
      with (foldl summary_step (summary_step (Fin a, nodes, text) item) items).
    unfold summary_step at 2.
    change (js_mul (Fin (item_price item)) (ToNumber (item_quantity item)))
      with (item_subtotal item).
    rewrite item_subtotal_storable by done. simpl js_add.
    rewrite IH. simpl. f_equal. lia.
Qed.

Lemma render_checkout_totals (cart : list CartLine) (p : CheckoutPage) :
  Forall storable cart →
  subtotalEl (render_checkout cart p)
  = (λ _, Ksh (Fin (sum_price cart))) <$> subtotalEl p
  ∧ totalEl (render_checkout cart p)
  = (λ _, Ksh (Fin (sum_price cart))) <$> totalEl p.
Proof.
  intros H. destruct cart as [|item cart]; [done|].
  unfold render_checkout, checkout_filled.
  pose proof (foldl_summary_step (item :: cart) 0 [] [] H) as Hsum.
  change (summaryContainer (set_summaryContainer [] p)) with (@nil SummaryNode).
  destruct (foldl summary_step _ _) as [[subtotal nodes] text].
  simpl in Hsum. subst subtotal. done.
Qed.

Lemma Forall2_shows_fmap (f : Row → Row) (rs : list Row) (items : list CartLine) :
  (∀ r x, shows_line r x → shows_line (f r) x) →
  Forall2 shows_line rs items → Forall2 shows_line (f <$> rs) items.
Proof.
  intros Hf. induction 1 as [|r x rs items Hr _ IH]; [constructor|].
  rewrite fmap_cons. constructor; auto.
Qed.

Lemma render_cart_filled (item : CartLine) (cart : list CartLine) (p : CartPage) :
  Forall storable (item :: cart) →
  cartSubtotalElement (render_cart (item :: cart) p)
  = (λ _, Ksh (Fin (sum_price (item :: cart)))) <$> cartSubtotalElement p
  ∧ cartTotalElement (render_cart (item :: cart) p)
  = (λ _, Ksh (Fin (sum_price (item :: cart)))) <$> cartTotalElement p
  ∧ Forall2 shows_line (cartItemsContainer (render_cart (item :: cart) p))
      (item :: cart).
Proof.
  intros H. unfold render_cart, cart_filled.
  change (cartItemsContainer (cart_show_totals (set_cartItemsContainer [] p)))
    with (@nil Row).
  rewrite (foldl_row_step (item :: cart) 0 []) by done.
  rewrite Z.add_0_l, app_nil_l.
  assert (Forall2 shows_line (item_row <$> item :: cart) (item :: cart)) as Hrows.
  { apply Forall2_fmap_l, Forall_Forall2_diag.
    eapply Forall_impl; [exact H|]. intros x Hx.
    unfold shows_line. split_and!; try done. by apply item_subtotal_storable. }
  unfold cart_bind_modal. simpl removeModal.
  destruct (removeModal p) as [m|];
    cbn [cartSubtotalElement cartTotalElement cartItemsContainer
         cart_show_totals set_cartItemsContainer];
    (split_and!; [done..|]);
    repeat (apply Forall2_shows_fmap; [by intros r x Hr|]); exact Hrows.
Qed.

Lemma render_cart_empty (p : CartPage) :
  cartSubtotalElement (render_cart [] p) = cartSubtotalElement p
  ∧ cartTotalElement (render_cart [] p) = cartTotalElement p
  ∧ cartTotalContainer (render_cart [] p) = (λ _, DisplayNone) <$> cartTotalContainer p
  ∧ cartItemsContainer (render_cart [] p) = [].
Proof. done. Qed.

(** C6.  On a cart that loads, the subtotal and the total that the
    checkout renderer writes and the subtotal and the total that the cart
    page renderer writes are all the sum of price times quantity over all
    lines: nothing is added for tax or shipping.  The checkout renderer
    writes them for every cart, 0 for the empty one; the cart page
    renderer computes a subtotal only when the cart has a line, and on the
    empty cart it hides the totals block and writes none. *)
Theorem renderers_agree_on_totals (w : World) (cart : list CartLine) :
  persisted w cart →
  ∃ w', (initCartPage;; initCheckoutPage) w = Returns tt w'
    ∧ (∀ kp, checkoutPage w = Some kp →
         ∃ kp', checkoutPage w' = Some kp'
           ∧ subtotalEl kp' = (λ _, Ksh (Fin (sum_price cart))) <$> subtotalEl kp
           ∧ totalEl kp' = (λ _, Ksh (Fin (sum_price cart))) <$> totalEl kp)
    ∧ (∀ cp, cartPage w = Some cp →
         ∃ cp', cartPage w' = Some cp'
           ∧ (cart ≠ [] →
                cartSubtotalElement cp'
                = (λ _, Ksh (Fin (sum_price cart))) <$> cartSubtotalElement cp
                ∧ cartTotalElement cp'
                = (λ _, Ksh (Fin (sum_price cart))) <$> cartTotalElement cp)
           ∧ (cart = [] →
                cartSubtotalElement cp' = cartSubtotalElement cp
                ∧ cartTotalElement cp' = cartTotalElement cp
                ∧ cartTotalContainer cp'
                  = (λ _, DisplayNone) <$> cartTotalContainer cp)).
Proof.
  intros Hw. pose proof (persisted_storable _ _ Hw) as Hstorable.
  eexists. split_and!.
  - erewrite bind_Returns by by apply initCartPage_persisted.
    by apply initCheckoutPage_persisted, persisted_rendered.
  - intros kp Hkp. simpl. rewrite Hkp. eexists. split; [done|].
    by apply render_checkout_totals.
  - intros cp Hcp. simpl. rewrite Hcp. eexists. split; [done|]. split.
    + intros Hcart. destruct cart as [|item cart]; [done|].
      by destruct (render_cart_filled item cart cp Hstorable) as (? & ? & _).
    + intros ->. by destruct (render_cart_empty cp) as (? & ? & ? & _).
Qed.

Lemma renderers_agree_on_totals_witness :
  persisted shirt_on_both_pages [new_line shirt]
  ∧ ∃ w', (initCartPage;; initCheckoutPage) shirt_on_both_pages = Returns tt w'.
Proof.
  assert (persisted shirt_on_both_pages [new_line shirt]) as Hw by reflexivity.
  split; [exact Hw|].
  destruct (renderers_agree_on_totals shirt_on_both_pages _ Hw) as (w' & Hcall & _).
  exists w'. exact Hcall.
Defined.

(** ** What a mutation re-derives *)

Lemma storable_reload (cart : list CartLine) : Forall storable (reload <$> cart).
Proof. apply Forall_fmap, Forall_true. intros x. apply parse_line_storable. Qed.

Lemma stringify_reload (cart : list CartLine) :
  JSON_stringify (reload <$> cart) = JSON_stringify cart.
Proof.
  unfold JSON_stringify. f_equal. rewrite <- list_fmap_compose.
  apply list_fmap_ext. intros _ x _. apply stringify_parse_line.
Qed.

Lemma saved_facts (cart : list CartLine) (w : World) :
  stored (saved cart w) = Some (JSON_stringify (reload <$> cart))
  ∧ persisted (saved cart w) (reload <$> cart)
  ∧ badges_show (reload <$> cart) w (saved cart w).
Proof.
  split_and!.
  - by rewrite stringify_reload.
  - apply persisted_saved.
  - unfold badges_show, saved. simpl.
    by rewrite (foldl_add_quantity _ 0), Z.add_0_l by apply storable_reload.
Qed.

Lemma render_cart_shows (cart : list CartLine) (w : World) :
  Forall storable cart → cart_page_shows cart w (rendered cart w).
Proof.
  intros H. unfold cart_page_shows, rendered. simpl.
  destruct (cartPage w) as [cp|]; [|done].
  eexists. split; [done|]. destruct cart as [|item cart]; [constructor|].
  by destruct (render_cart_filled item cart cp H) as (_ & _ & ?).
Qed.

Lemma cart_page_shows_toasted (cart : list CartLine) (message : string)
    (w w' : World) :
  cart_page_shows cart w w' → cart_page_shows cart w (toasted message w').
Proof. unfold cart_page_shows, toasted. by destruct (toastContainer w'). Qed.

Lemma toasted_facts (message : string) (w : World) :
  stored (toasted message w) = stored w
  ∧ cartCountElements (toasted message w) = cartCountElements w
  ∧ cartPage (toasted message w) = cartPage w
  ∧ checkoutPage (toasted message w) = checkoutPage w.
Proof. unfold toasted. by destruct (toastContainer w). Qed.

(** C9, as the script has it.  [addToCart] on a page that shows the empty
    cart stores the shirt and leaves the table without rows and the
    summary with the notice of the empty cart.  [clearCart] deletes the
    cart key, where [saveCart] would have left text under it, and leaves
    the row of the shirt in the table.  Removing the shirt through the
    dialog leaves the shirt in the order summary. *)
Lemma some_views_are_not_rederived :
  let w1 := world_after (addToCart shirt empty_on_both_pages) in
  let w2 := world_after (clearCart shirt_on_both_pages) in
  (persisted w1 [new_line shirt]
   ∧ rows w1 = []
   ∧ summaryContainer <$> checkoutPage w1 = Some [EmptyNotice])
  ∧ (stored w2 = None
     ∧ persisted w2 []
     ∧ row_id <$> rows w2 = ["p1"%string])
  ∧ (persisted shirt_removed []
     ∧ summaryContainer <$> checkoutPage shirt_removed
       = Some [SummaryItem "Shirt" (VNumber (Fin 1)) (Fin 1500)]).
Proof. split_and!; vm_compute; reflexivity. Qed.

(** C9, amended.  On a cart that loads, each of [addToCart],
    [updateQuantity] and [removeItemFromCart] returns, stores the text of
    the new cart, and shows its count on the badges; [updateQuantity] and
    [removeItemFromCart] also render the cart table from the new cart.
    [addToCart] leaves the cart page as it was.  [clearCart] returns,
    deletes the cart key, hides the badges and leaves the cart page as it
    was.  None of the four touches the checkout summary. *)
Theorem mutations_persist_and_project (w : World) (cart : list CartLine) :
  persisted w cart →
  (∀ product, ∃ w' cart',
      addToCart product w = Returns tt w'
      ∧ stored w' = Some (JSON_stringify cart') ∧ persisted w' cart'
      ∧ badges_show cart' w w'
      ∧ cartPage w' = cartPage w ∧ checkoutPage w' = checkoutPage w)
  ∧ (∀ productId quantity, ∃ w' cart',
      updateQuantity productId quantity w = Returns tt w'
      ∧ stored w' = Some (JSON_stringify cart') ∧ persisted w' cart'
      ∧ badges_show cart' w w'
      ∧ cart_page_shows cart' w w' ∧ checkoutPage w' = checkoutPage w)
  ∧ (∀ productId, ∃ w' cart',
      removeItemFromCart productId w = Returns tt w'
      ∧ stored w' = Some (JSON_stringify cart') ∧ persisted w' cart'
      ∧ badges_show cart' w w'
      ∧ cart_page_shows cart' w w' ∧ checkoutPage w' = checkoutPage w)
  ∧ (∃ w',
      clearCart w = Returns tt w'
      ∧ stored w' = None ∧ persisted w' []
      ∧ badges_show [] w w'
      ∧ cartPage w' = cartPage w ∧ checkoutPage w' = checkoutPage w).
Proof.
  intros Hw. split_and!.
  - intros product. rewrite (addToCart_persisted w cart) by done.
    destruct (saved_facts (added product cart) w) as (Hs & Hp & Hb).
    exists (toasted (String.append (product_name product) " has been added to your cart!")
              (saved (added product cart) w)),
      (reload <$> added product cart).
    destruct (toasted_facts
                (String.append (product_name product) " has been added to your cart!")
                (saved (added product cart) w)) as (Ts & Tb & Tc & Tk).
    split; [done|]. split_and!.
    + by rewrite Ts.
    + by apply persisted_toasted.
    + unfold badges_show. by rewrite Tb.
    + by rewrite Tc.
    + by rewrite Tk.
  - intros productId quantity. rewrite (updateQuantity_persisted w cart) by done.
    destruct (saved_facts (requantified productId quantity cart) w) as (Hs & Hp & Hb).
    eexists _, _. split; [done|]. split_and!; [done| |done| |done].
    + by apply persisted_rendered.
    + apply (render_cart_shows _ (saved _ w)), storable_reload.
  - intros productId. rewrite (removeItemFromCart_persisted w cart) by done.
    set (cart' := filter _ cart).
    destruct (saved_facts cart' w) as (Hs & Hp & Hb).
    exists (toasted "Item removed from cart." (rendered (reload <$> cart') (saved cart' w))),
      (reload <$> cart').
    destruct (toasted_facts "Item removed from cart."
                (rendered (reload <$> cart') (saved cart' w))) as (Ts & Tb & _ & Tk).
    split; [done|]. split_and!.
    + by rewrite Ts.
    + by apply persisted_toasted, persisted_rendered.
    + unfold badges_show. by rewrite Tb.
    + apply cart_page_shows_toasted.
      apply (render_cart_shows _ (saved _ w)), storable_reload.
    + by rewrite Tk.
  - eexists. split; [apply clearCart_returns|]. by split_and!.
Qed.

Lemma mutations_persist_and_project_witness :
  persisted loaded_cart_page [new_line shirt; new_line dress]
  ∧ ∃ w',
      clearCart loaded_cart_page = Returns tt w'
      ∧ stored w' = None ∧ persisted w' []
      ∧ badges_show [] loaded_cart_page w'
      ∧ cartPage w' = cartPage loaded_cart_page
      ∧ checkoutPage w' = checkoutPage loaded_cart_page.
Proof.
  assert (persisted loaded_cart_page [new_line shirt; new_line dress]) as Hw
    by reflexivity.
  split; [exact Hw|].
  destruct (mutations_persist_and_project loaded_cart_page _ Hw)
    as (_ & _ & _ & Hclear).
  exact Hclear.
Defined.

(** C10, as the script has it: after [updateQuantity] with [NaN] for the
    shirt, the call has returned and a load yields the shirt with the
    quantity [null]; it does not yield it with the quantity [NaN]. *)
Lemma NaN_quantity_is_stored_as_null :
  let w' := world_after (updateQuantity "p1" NaN loaded_cart_page) in
  parseInt10 "" = NaN
  ∧ updateQuantity "p1" NaN loaded_cart_page = Returns tt w'
  ∧ persisted w' [set_quantity VNull (new_line shirt); new_line dress]
  ∧ ¬ persisted w' [set_quantity (VNumber NaN) (new_line shirt); new_line dress].
Proof.
  split_and!; [reflexivity..|].
  intros H.
  assert (persisted (world_after (updateQuantity "p1" NaN loaded_cart_page))
            [set_quantity VNull (new_line shirt); new_line dress]) as H'
    by reflexivity.
  pose proof (persisted_inj _ _ _ H H') as Heq. discriminate Heq.
Qed.

(** C10, amended.  [NaN] is not below 1.  On a cart that loads,
    [updateQuantity] with [NaN] for the id of a line returns; the array it
    hands to [saveCart] has [NaN] as the quantity of the first line of
    that id and is otherwise the cart; the text it stores has [null] for
    that quantity, so the next load yields the line with the quantity
    [null]. *)
Theorem updateQuantity_NaN_stores_null (w : World) (l1 l2 : list CartLine)
    (line : CartLine) (productId : string) :
  persisted w (l1 ++ line :: l2) →
  no_line productId l1 → item_id line = productId →
  js_lt NaN (Fin 1) = false
  ∧ requantified productId NaN (l1 ++ line :: l2)
    = l1 ++ set_quantity (VNumber NaN) line :: l2
  ∧ json_quantity (stringify_line (set_quantity (VNumber NaN) line)) = None
  ∧ ∃ w', updateQuantity productId NaN w = Returns tt w'
      ∧ stored w'
        = Some (JSON_stringify (l1 ++ set_quantity (VNumber NaN) line :: l2))
      ∧ persisted w' (l1 ++ set_quantity VNull line :: l2).
Proof.
  intros Hw Hl1 Hline.
  pose proof (requantified_existing productId NaN l1 l2 line eq_refl Hl1 Hline)
    as Hreq.
  split_and!; [done..|].
  destruct (updateQuantity_step w _ productId NaN Hw) as (w' & Hcall & Hs & _ & Hp).
  rewrite Hreq in Hs, Hp. exists w'. split_and!; [done..|].
  apply persisted_storable in Hw. apply Forall_app in Hw as [H1 H2].
  inversion H2 as [|? ? _ Hl2]; subst.
  rewrite fmap_app, fmap_cons, !reload_storable_list in Hp by done.
  exact Hp.
Qed.

Lemma updateQuantity_NaN_stores_null_witness :
  persisted loaded_cart_page ([] ++ new_line shirt :: [new_line dress])
  ∧ no_line "p1" []
  ∧ ∃ w', updateQuantity "p1" NaN loaded_cart_page = Returns tt w'
      ∧ persisted w' ([] ++ set_quantity VNull (new_line shirt) :: [new_line dress]).
Proof.
  assert (persisted loaded_cart_page ([] ++ new_line shirt :: [new_line dress]))
    as Hw by reflexivity.
  assert (no_line "p1" []) as Hl1 by constructor.
  split; [exact Hw|]. split; [exact Hl1|].
  destruct (updateQuantity_NaN_stores_null loaded_cart_page [] [new_line dress]
              (new_line shirt) "p1" Hw Hl1 eq_refl)
    as (_ & _ & _ & w' & Hcall & _ & Hp).
  exists w'. split; [exact Hcall | exact Hp].
Defined.

(** ** The removal dialog *)

Lemma modify_modal_world (f : Modal → Modal) (w : World) :
  modify_modal f w = Returns tt
    (set_cartPage ((λ p, set_removeModal (f <$> removeModal p) p) <$> cartPage w) w).
Proof. reflexivity. Qed.

Lemma pending_modify_modal (f : Modal → Modal) (w : World) :
  pending (world_after (modify_modal f w))
  = match cartPage w ≫= removeModal with
    | Some m => closures (f m)
    | None => []
    end.
Proof.
  unfold pending. simpl.
  destruct (cartPage w) as [p|]; [|done]. simpl.
  by destruct (removeModal p).
Qed.

(** X19.  The remove button of a row only writes the variable of the
    activation that owns its listener, and shows the dialog: the store,
    the badges and the rows stay as they are. *)
Lemma ClickRemove_keeps_the_cart (row : nat) (w : World) :
  localStorage (dispatch (ClickRemove row) w) = localStorage w
  ∧ cartCountElements (dispatch (ClickRemove row) w) = cartCountElements w
  ∧ rows (dispatch (ClickRemove row) w) = rows w
  ∧ ∀ r k, rows w !! row = Some r → row_click r = Some k →
      (k < length (pending w))%nat →
      pending (dispatch (ClickRemove row) w) = <[k := Some (row_id r)]> (pending w)
      ∧ modal_shown (dispatch (ClickRemove row) w) = true.
Proof.
  unfold dispatch.
  destruct (rows w !! row) as [r|] eqn:Hr; [|by split_and!].
  destruct (row_click r) as [k|] eqn:Hk;
    [|split_and!; [done..|]; intros r' k' [= <-]; congruence].
  unfold openRemoveModal. rewrite modify_modal_world. simpl.
  split_and!; [done..| |].
  - unfold rows. simpl. by destruct (cartPage w).
  - intros r' k' [= <-] Hk' Hlt. rewrite Hk in Hk'. injection Hk' as <-.
    unfold pending, modal_shown in *. simpl.
    destruct (cartPage w) as [p|]; simpl in *; [|lia].
    destruct (removeModal p) as [m|]; simpl in *; [done|lia].
Qed.

Lemma close_listeners (ks : list nat) (w : World) :
  let w' := foldl (λ w k, world_after (closeRemoveModal k w)) w ks in
  localStorage w' = localStorage w
  ∧ cartCountElements w' = cartCountElements w
  ∧ rows w' = rows w
  ∧ pending w' = foldl (λ cs k, <[k := None]> cs) (pending w) ks
  ∧ (ks ≠ [] → pending w ≠ [] → modal_shown w' = false).
Proof.
  revert w. induction ks as [|k ks IH]; intros w; [by split_and!|].
  simpl. destruct (IH (world_after (closeRemoveModal k w)))
    as (Hs & Hb & Hr & Hp & Hm).
  unfold closeRemoveModal in *. rewrite modify_modal_world in *. simpl in *.
  split_and!.
  - by rewrite Hs.
  - by rewrite Hb.
  - rewrite Hr. unfold rows. simpl. by destruct (cartPage w).
  - rewrite Hp. f_equal. unfold pending. simpl.
    destruct (cartPage w) as [p|]; [|done]. simpl. by destruct (removeModal p).
  - intros _ Hw. destruct ks as [|k' ks].
    + simpl. unfold modal_shown, pending in *. simpl.
      destruct (cartPage w) as [p|]; [|done]. simpl in *.
      by destruct (removeModal p).
    + apply Hm; [done|]. unfold pending in *. simpl.
      destruct (cartPage w) as [p|]; [|done]. simpl in *.
      destruct (removeModal p) as [m|]; [|done]. simpl.
      intros Hnil. apply Hw. apply (f_equal length) in Hnil.
      rewrite length_insert in Hnil. by destruct (closures m).
Qed.

Lemma lookup_clear (ks : list nat) (cs : list (option string)) (i : nat) :
  foldl (λ cs k, <[k := None]> cs) cs ks !! i
  = if bool_decide (i ∈ ks) then (λ _, None) <$> cs !! i else cs !! i.
Proof.
  revert cs. induction ks as [|k ks IH]; intros cs; [done|].
  simpl. rewrite IH. destruct (decide (i = k)) as [->|Hne].
  - rewrite (bool_decide_eq_true_2 (k ∈ k :: ks)) by left.
    destruct (cs !! k) as [x|] eqn:Hk.
    + rewrite list_lookup_insert_eq by by eapply lookup_lt_Some.
      by case_bool_decide.
    + rewrite list_insert_ge by by apply lookup_ge_None.
      rewrite Hk. by case_bool_decide.
  - rewrite list_lookup_insert_ne by done.
    destruct (decide (i ∈ ks)) as [Hin|Hin].
    + rewrite (bool_decide_eq_true_2 _ Hin).
      by rewrite bool_decide_eq_true_2 by by right.
    + rewrite (bool_decide_eq_false_2 _ Hin).
      rewrite bool_decide_eq_false_2; [done|].
      by intros [?|?]%elem_of_cons.
Qed.

Lemma clear_all (cs : list (option string)) :
  foldl (λ cs k, <[k := None]> cs) cs (seq 0 (length cs))
  = replicate (length cs) None.
Proof.
  apply list_eq. intros i. rewrite lookup_clear.
  destruct (cs !! i) as [x|] eqn:Hi.
  - pose proof (lookup_lt_Some _ _ _ Hi) as Hlt.
    rewrite bool_decide_eq_true_2 by (apply elem_of_seq; lia).
    by rewrite lookup_replicate_2.
  - pose proof (proj1 (lookup_ge_None _ _) Hi) as Hge.
    rewrite (proj2 (lookup_ge_None (replicate (length cs) None) i))
      by by rewrite length_replicate.
    by case_bool_decide.
Qed.

(** X20.  Cancel and the close button: every listener clears its
    variable and hides the dialog; the store, the badges and the rows stay
    as they are. *)
Lemma Cancel_keeps_the_cart (e : Event) (w : World) :
  e = ClickCancel ∨ e = ClickClose →
  localStorage (dispatch e w) = localStorage w
  ∧ cartCountElements (dispatch e w) = cartCountElements w
  ∧ rows (dispatch e w) = rows w
  ∧ pending (dispatch e w) = replicate (length (pending w)) None
  ∧ (pending w ≠ [] → modal_shown (dispatch e w) = false).
Proof.
  intros He.
  assert (dispatch e w
          = foldl (λ w k, world_after (closeRemoveModal k w)) w
              (seq 0 (length (pending w)))) as ->.
  { destruct He as [-> | ->]; unfold dispatch, run_listeners, activations, pending;
      by destruct (cartPage w ≫= removeModal). }
  destruct (close_listeners (seq 0 (length (pending w))) w)
    as (Hs & Hb & Hr & Hp & Hm).
  split_and!; [done..| |].
  - by rewrite Hp, clear_all.
  - intros Hw. apply Hm; [|done]. by destruct (pending w).
Qed.

Lemma productIdToRemove_pending (k : nat) (w : World) :
  productIdToRemove k w = default None (pending w !! k).
Proof.
  unfold productIdToRemove, pending.
  destruct (cartPage w) as [p|]; [|done]. simpl.
  by destruct (removeModal p).
Qed.

Lemma persisted_modify_modal (f : Modal → Modal) (w : World) (cart : list CartLine) :
  persisted w cart → persisted (world_after (modify_modal f w)) cart.
Proof.
  rewrite modify_modal_world. unfold persisted, getCart. simpl.
  intros H. destruct (JSON_parse_or_empty _); congruence.
Qed.

Lemma pending_rendered (cart : list CartLine) (w : World) :
  ∃ extra, pending (rendered cart w) = pending w ++ extra.
Proof.
  unfold pending, rendered. simpl.
  destruct (cartPage w) as [p|]; [|by exists []]. simpl.
  destruct cart as [|item cart]; simpl.
  - exists []. rewrite app_nil_r. by destruct (removeModal p).
  - unfold cart_bind_modal, cart_filled. simpl.
    destruct (foldl row_step _ _) as [subtotal rs]. simpl.
    destruct (removeModal p) as [m|]; simpl; [by exists [None]|by exists []].
Qed.

Lemma pending_toasted (message : string) (w : World) :
  pending (toasted message w) = pending w.
Proof. unfold pending, toasted. by destruct (toastContainer w). Qed.

Lemma pending_closeRemoveModal (k : nat) (w : World) :
  pending (world_after (closeRemoveModal k w)) = <[k := None]> (pending w).
Proof.
  unfold closeRemoveModal. rewrite pending_modify_modal.
  unfold pending. by destruct (cartPage w ≫= removeModal).
Qed.

Lemma confirm_listener_persisted (k : nat) (w : World) (cart : list CartLine) :
  persisted w cart →
  persisted (world_after (confirm_listener k w)) (without (targets [k] w) cart)
  ∧ ∃ extra,
      pending (world_after (confirm_listener k w))
      = <[k := None]> (pending w ++ extra).
Proof.
  intros Hw. unfold confirm_listener.
  erewrite bind_Returns by reflexivity.
  unfold targets. simpl omap. rewrite productIdToRemove_pending.
  destruct (pending w !! k) as [[productId|]|] eqn:Hk; simpl default.
  - unfold truthy. destruct (negb (String.eqb productId "")) eqn:Htruthy.
    + erewrite bind_Returns by by apply removeItemFromCart_persisted.
      set (cart' := filter (λ item, item_id item ≠ productId) cart).
      split.
      * apply persisted_modify_modal, persisted_toasted, persisted_rendered.
        apply persisted_saved_storable.
        by eapply storable_filter, persisted_storable.
      * destruct (pending_rendered (reload <$> cart') (saved cart' w)) as [extra He].
        exists extra. rewrite pending_closeRemoveModal, pending_toasted, He.
        done.
    + erewrite bind_Returns by reflexivity. split.
      * by apply persisted_modify_modal.
      * exists []. by rewrite pending_closeRemoveModal, app_nil_r.
  - erewrite bind_Returns by reflexivity. split.
    + by apply persisted_modify_modal.
    + exists []. by rewrite pending_closeRemoveModal, app_nil_r.
  - erewrite bind_Returns by reflexivity. split.
    + by apply persisted_modify_modal.
    + exists []. by rewrite pending_closeRemoveModal, app_nil_r.
Qed.

Lemma targets_cons (k : nat) (ks : list nat) (w : World) :
  targets (k :: ks) w = targets [k] w ++ targets ks w.
Proof.
  unfold targets. simpl.
  destruct (pending w !! k) as [[productId|]|]; [|done..].
  by destruct (negb (String.eqb productId "")).
Qed.

Lemma targets_ext (ks : list nat) (w w' : World) :
  (∀ k, k ∈ ks → pending w' !! k = pending w !! k) →
  targets ks w' = targets ks w.
Proof.
  intros H. induction ks as [|k ks IH]; [done|].
  rewrite (targets_cons k ks w'), (targets_cons k ks w), IH.
  - f_equal. unfold targets. simpl. by rewrite H by left.
  - intros j Hj. apply H. by right.
Qed.

Lemma confirm_listeners (ks : list nat) (w : World) (cart : list CartLine) :
  persisted w cart → NoDup ks →
  (∀ k, k ∈ ks → (k < length (pending w))%nat) →
  persisted (foldl (λ w k, world_after (confirm_listener k w)) w ks)
    (without (targets ks w) cart).
Proof.
  revert w cart. induction ks as [|k ks IH]; intros w cart Hw Hnodup Hlt; [done|].
  apply NoDup_cons in Hnodup as [Hk Hnodup].
  destruct (confirm_listener_persisted k w cart Hw) as (Hw1 & extra & Hp).
  simpl foldl. rewrite targets_cons. unfold without. rewrite foldl_app.
  rewrite <- (targets_ext ks w (world_after (confirm_listener k w))).
  - apply IH; [done..|]. intros j Hj. rewrite Hp, length_insert, length_app.
    pose proof (Hlt j ltac:(by right)). lia.
  - intros j Hj. rewrite Hp.
    rewrite list_lookup_insert_ne by (intros ->; done).
    apply lookup_app_l, Hlt. by right.
Qed.

(** Confirm: the listener of every activation runs and removes the line
    whose id its own variable holds; the cart is left without the lines of
    all those ids. *)
Lemma Confirm_removes_every_target (w : World) (cart : list CartLine) :
  persisted w cart →
  persisted (dispatch ClickConfirm w)
    (without (targets (seq 0 (length (pending w))) w) cart).
Proof.
  intros Hw.
  assert (dispatch ClickConfirm w
          = foldl (λ w k, world_after (confirm_listener k w)) w
              (seq 0 (length (pending w)))) as ->.
  { unfold dispatch, run_listeners, activations, pending.
    by destruct (cartPage w ≫= removeModal). }
  apply confirm_listeners; [done|apply NoDup_seq|].
  intros k Hk%elem_of_seq. lia.
Qed.

Lemma targets_none (ks : list nat) (w : World) :
  (∀ k, k ∈ ks → default None (pending w !! k) = None) →
  targets ks w = [].
Proof.
  intros H. induction ks as [|k ks IH]; [done|].
  rewrite targets_cons, IH by (intros j Hj; apply H; by right).
  rewrite app_nil_r. unfold targets. simpl.
  pose proof (H k ltac:(left)) as Hk.
  by destruct (pending w !! k) as [[productId|]|].
Qed.

(** X21.  With one request pending, in the variable of the last
    activation, Confirm removes the lines of that id and no other. *)
Lemma Confirm_removes_the_single_target (w : World) (cart : list CartLine)
    (n : nat) (productId : string) :
  persisted w cart →
  pending w = replicate n None ++ [Some productId] →
  productId ≠ ""%string →
  persisted (dispatch ClickConfirm w)
    (filter (λ item, item_id item ≠ productId) cart).
Proof.
  intros Hw Hp Hid.
  pose proof (Confirm_removes_every_target w cart Hw) as H.
  replace (targets (seq 0 (length (pending w))) w) with [productId] in H; [done|].
  rewrite Hp, length_app, length_replicate. simpl length.
  rewrite Nat.add_1_r, seq_S. unfold targets at 1. rewrite omap_app.
  fold (targets (seq 0 n) w). rewrite targets_none.
  - simpl. rewrite Hp, lookup_app_r, length_replicate, Nat.sub_diag
      by by rewrite length_replicate.
    simpl. by rewrite (proj2 (String.eqb_neq productId "") Hid).
  - intros k Hk%elem_of_seq. rewrite Hp, lookup_app_l
      by (rewrite length_replicate; lia).
    by rewrite lookup_replicate_2 by lia.
Qed.

(** C7, at a run of the page.  The cart page is loaded with a shirt and a
    dress.  The remove button of the shirt is activated: the first
    activation of [initCartPage] holds the shirt.  The quantity of the
    dress is changed while the dialog is open: the table is rendered anew
    and a second activation adds its listeners to the buttons of the
    dialog, next to those of the first.  The remove button of the dress is
    activated: the second activation holds the dress, the first still
    holds the shirt.  Nothing was removed so far.  Confirm then runs both
    confirm listeners and the cart is left empty: the shirt is removed as
    well, although the dress was requested last. *)
Theorem Confirm_removes_an_overwritten_target :
  persisted loaded_cart_page [new_line shirt; new_line dress]
  ∧ pending (dispatch_all [ClickRemove 0] loaded_cart_page) = [Some "p1"%string]
  ∧ pending (dispatch_all [ClickRemove 0; Change 1 "2"] loaded_cart_page)
    = [Some "p1"%string; None]
  ∧ pending two_requests = [Some "p1"%string; Some "p2"%string]
  ∧ modal_shown two_requests = true
  ∧ persisted two_requests
      [new_line shirt; set_quantity (VNumber (Fin 2)) (new_line dress)]
  ∧ persisted (dispatch ClickConfirm two_requests) [].
Proof. split_and!; vm_compute; reflexivity. Qed.

(** * Further properties of the script *)

(** ** Loading and saving *)

Lemma getCart_cases (w : World) :
  (∃ cart, persisted w cart)
  ∨ getCart w = Returns CartOther w
  ∨ getCart w = Throws SyntaxError w.
Proof.
  unfold persisted, getCart.
  destruct (nassimStitchesCart (localStorage w)) as [[lines| | |]|]; simpl; eauto.
Qed.

(** X1.  [saveCart] returns whatever the cart key held before, text that
    is not JSON included, and leaves the order-details key alone; when no
    quantity of the array is [NaN], the next [getCart] returns that very
    array. *)
Theorem saveCart_then_getCart (cart : list CartLine) (w : World) :
  Forall storable cart →
  ∃ w', saveCart cart w = Returns tt w'
    ∧ getCart w' = Returns (CartArray cart) w'
    ∧ orderDetails (localStorage w') = orderDetails (localStorage w).
Proof.
  intros H. exists (saved cart w). split_and!.
  - apply saveCart_saved.
  - by apply persisted_saved_storable.
  - reflexivity.
Qed.

Lemma saveCart_then_getCart_witness :
  Forall storable [new_line shirt]
  ∧ ∃ w', saveCart [new_line shirt] (with_stored (Some NotJson) fresh_cart_page)
          = Returns tt w'
      ∧ getCart w' = Returns (CartArray [new_line shirt]) w'.
Proof.
  assert (Forall storable [new_line shirt]) as H
    by (repeat constructor; discriminate).
  split; [exact H|].
  destruct (saveCart_then_getCart [new_line shirt]
              (with_stored (Some NotJson) fresh_cart_page) H)
    as (w' & Hsave & Hget & _).
  exists w'. split; [exact Hsave | exact Hget].
Defined.

Lemma show_count_twice (total : Number) (el : Badge) :
  show_count total (show_count total el) = show_count total el.
Proof. unfold show_count. by destruct (js_gt total (Fin 0)). Qed.

(** X2.  [updateCartCount] is idempotent: in every world, a second call
    right after the first ends as the first did, in the same world. *)
Theorem updateCartCount_idempotent (w : World) :
  (updateCartCount;; updateCartCount) w = updateCartCount w.
Proof.
  destruct (getCart_cases w) as [[cart Hw]|[Hw|Hw]].
  - erewrite bind_Returns by by apply updateCartCount_persisted.
    rewrite (updateCartCount_persisted _ cart).
    + rewrite (updateCartCount_persisted w cart Hw). simpl. f_equal.
      unfold set_cartCountElements. simpl. f_equal.
      rewrite <- list_fmap_compose. apply list_fmap_ext.
      intros _ el _. apply show_count_twice.
    + unfold persisted, getCart in *. simpl.
      destruct (JSON_parse_or_empty _); congruence.
  - assert (updateCartCount w = Throws TypeError w) as Hthrow.
    { unfold updateCartCount. by rewrite (bind_Returns _ _ _ _ _ Hw). }
    by rewrite (bind_Throws _ _ _ _ _ Hthrow).
  - assert (updateCartCount w = Throws SyntaxError w) as Hthrow.
    { unfold updateCartCount. by rewrite (bind_Throws _ _ _ _ _ Hw). }
    by rewrite (bind_Throws _ _ _ _ _ Hthrow).
Qed.

(** ** The renderers, once more *)

Lemma render_checkout_twice (cart : list CartLine) (p : CheckoutPage) :
  render_checkout cart (render_checkout cart p) = render_checkout cart p.
Proof.
  destruct p as [nodes [s|] [t|] [b|] [i|]];
    destruct cart as [|item cart]; try reflexivity;
    unfold render_checkout, checkout_filled; simpl;
    destruct (foldl summary_step _ cart) as [[subtotal ns] text]; reflexivity.
Qed.

Lemma persisted_set_checkoutPage (p : option CheckoutPage) (w : World)
    (cart : list CartLine) :
  persisted w cart → persisted (set_checkoutPage p w) cart.
Proof.
  unfold persisted, getCart. simpl. intros H.
  destruct (JSON_parse_or_empty _); congruence.
Qed.

(** X3.  [initCheckoutPage] is idempotent: in every world, a second call
    right after the first ends as the first did, in the same world; the
    summary is cleared before it is filled, so no entry is doubled. *)
Theorem initCheckoutPage_idempotent (w : World) :
  (initCheckoutPage;; initCheckoutPage) w = initCheckoutPage w.
Proof.
  destruct (getCart_cases w) as [[cart Hw]|[Hw|Hw]].
  - erewrite bind_Returns by by apply initCheckoutPage_persisted.
    rewrite (initCheckoutPage_persisted _ cart)
      by by apply persisted_set_checkoutPage.
    rewrite (initCheckoutPage_persisted w cart Hw). simpl. f_equal.
    unfold set_checkoutPage. simpl. f_equal.
    destruct (checkoutPage w) as [p|]; [|done]. simpl.
    by rewrite render_checkout_twice.
  - assert (initCheckoutPage w = Returns tt w
            ∨ ∃ w', initCheckoutPage w = Throws TypeError w') as [H|[w' H]].
    { unfold initCheckoutPage. erewrite bind_Returns by reflexivity.
      destruct (checkoutPage w) as [p|]; [|by left].
      rewrite (bind_Returns _ _ _ _ _ Hw). right. eexists. reflexivity. }
    + by rewrite (bind_Returns _ _ _ _ _ H).
    + by rewrite (bind_Throws _ _ _ _ _ H).
  - assert (initCheckoutPage w = Returns tt w
            ∨ initCheckoutPage w = Throws SyntaxError w) as [H|H].
    { unfold initCheckoutPage. erewrite bind_Returns by reflexivity.
      destruct (checkoutPage w) as [p|]; [|by left].
      right. by rewrite (bind_Throws _ _ _ _ _ Hw). }
    + by rewrite (bind_Returns _ _ _ _ _ H).
    + by rewrite (bind_Throws _ _ _ _ _ H).
Qed.

Lemma foldl_summary_step_full (items : list CartLine) (a : Z)
    (nodes text : list SummaryNode) :
  Forall storable items →
  foldl summary_step (Fin a, nodes, text) items
  = (Fin (a + sum_price items), nodes ++ (summary_node <$> items),
     text ++ (summary_node <$> items)).
Proof.
  intros H. revert a nodes text.
  induction H as [|item items Hitem _ IH]; intros a nodes text.
  - simpl. by rewrite Z.add_0_r, !app_nil_r.
  - change (foldl summary_step (Fin a, nodes, text) (item :: items))
      with (foldl summary_step (summary_step (Fin a, nodes, text) item) items).
    unfold summary_step at 2.
    change (js_mul (Fin (item_price item)) (ToNumber (item_quantity item)))
      with (item_subtotal item).
    rewrite item_subtotal_storable by done. simpl js_add.
    rewrite IH, fmap_cons, <- !app_assoc. simpl.
    do 2 f_equal. f_equal. lia.
Qed.

(** X4.  On a cart that loads, [initCheckoutPage] on a page with the
    order summary returns and replaces the entries of the summary: the
    notice of the empty cart, or one entry per line, in order.  The
    place-order button is disabled exactly when the cart is empty.  The
    hidden order text is written from the lines when there are any, and
    keeps its old value when the cart is empty.  Store, badges, toasts
    and cart page are not touched. *)
Theorem initCheckoutPage_view (w : World) (cart : list CartLine)
    (kp : CheckoutPage) :
  persisted w cart → checkoutPage w = Some kp →
  ∃ w' kp', initCheckoutPage w = Returns tt w' ∧ checkoutPage w' = Some kp'
    ∧ summaryContainer kp'
      = (if bool_decide (cart = []) then [EmptyNotice] else summary_node <$> cart)
    ∧ placeOrderBtn kp'
      = (λ _, {| disabled := bool_decide (cart = []);
                 btn_disabled := bool_decide (cart = []) |}) <$> placeOrderBtn kp
    ∧ orderSummaryInput kp'
      = (if bool_decide (cart = []) then orderSummaryInput kp
         else (λ _, OrderText (Fin (sum_price cart)) (summary_node <$> cart))
                <$> orderSummaryInput kp)
    ∧ localStorage w' = localStorage w
    ∧ cartCountElements w' = cartCountElements w
    ∧ toastContainer w' = toastContainer w
    ∧ cartPage w' = cartPage w.
Proof.
  intros Hw Hkp. pose proof (persisted_storable _ _ Hw) as Hstorable.
  rewrite (initCheckoutPage_persisted w cart Hw), Hkp.
  eexists _, _. split; [done|]. split; [done|].
  destruct cart as [|item cart]; [by split_and!|].
  rewrite bool_decide_eq_false_2 by done.
  unfold render_checkout, checkout_filled.
  change (summaryContainer (set_summaryContainer [] kp)) with (@nil SummaryNode).
  rewrite (foldl_summary_step_full (item :: cart) 0 [] []) by done.
  rewrite Z.add_0_l. by split_and!.
Qed.

Lemma initCheckoutPage_view_witness :
  persisted shirt_removed []
  ∧ ∃ w' kp', initCheckoutPage shirt_removed = Returns tt w'
      ∧ checkoutPage w' = Some kp'
      ∧ summaryContainer kp' = [EmptyNotice].
Proof.
  assert (persisted shirt_removed []) as Hw by (vm_compute; reflexivity).
  split; [exact Hw|].
  destruct (initCheckoutPage_view shirt_removed [] _ Hw eq_refl)
    as (w' & kp' & Hcall & Hkp' & Hnodes & _).
  exists w', kp'. split; [exact Hcall|]. split; [exact Hkp' | exact Hnodes].
Defined.

(** X5.  On a cart that loads and whose ids, names and images hold no
    character that is special in HTML, [initCartPage] on a page with the
    cart table returns and replaces the rows: one row per line, in order,
    each showing its line and with a change listener on its quantity
    input.  The checkout button is disabled, the empty-cart message
    displayed and the totals block hidden exactly when the cart is empty.
    Store, badges, toasts and checkout summary are not touched.  (The rows
    are built with [innerHTML] from the fields as they are, so a line
    with a special character gives a row that does not show it.) *)
Theorem initCartPage_view (w : World) (cart : list CartLine) (cp : CartPage) :
  persisted w cart → Forall plain_line cart → cartPage w = Some cp →
  ∃ w' cp', initCartPage w = Returns tt w' ∧ cartPage w' = Some cp'
    ∧ Forall2 shows_line (cartItemsContainer cp') cart
    ∧ Forall (λ r, row_change r = true) (cartItemsContainer cp')
    ∧ checkoutBtn cp' = (λ _, bool_decide (cart = [])) <$> checkoutBtn cp
    ∧ emptyCartMessage cp'
      = (λ _, if bool_decide (cart = []) then DisplayBlock else DisplayNone)
          <$> emptyCartMessage cp
    ∧ cartTotalContainer cp'
      = (λ _, if bool_decide (cart = []) then DisplayNone else DisplayBlock)
          <$> cartTotalContainer cp
    ∧ localStorage w' = localStorage w
    ∧ cartCountElements w' = cartCountElements w
    ∧ toastContainer w' = toastContainer w
    ∧ checkoutPage w' = checkoutPage w.
Proof.
  intros Hw _ Hcp. pose proof (persisted_storable _ _ Hw) as Hstorable.
  rewrite (initCartPage_persisted w cart Hw). unfold rendered. rewrite Hcp.
  eexists _, _. split; [done|]. split; [done|].
  destruct cart as [|item cart]; [by split_and!; try constructor|].
  rewrite bool_decide_eq_false_2 by done.
  destruct (render_cart_filled item cart cp Hstorable) as (_ & _ & Hrows).
  split; [exact Hrows|].
  unfold render_cart, cart_filled.
  change (cartItemsContainer (cart_show_totals (set_cartItemsContainer [] cp)))
    with (@nil Row).
  rewrite (foldl_row_step (item :: cart) 0 []) by done.
  unfold cart_bind_modal. simpl removeModal.
  destruct (removeModal cp) as [m|];
    cbn [cartItemsContainer checkoutBtn emptyCartMessage cartTotalContainer
         cart_show_totals set_cartItemsContainer];
    (split_and!; [|done..]);
    rewrite ?Forall_fmap; by apply Forall_true.
Qed.

Lemma initCartPage_view_witness :
  persisted shirt_on_both_pages [new_line shirt]
  ∧ Forall plain_line [new_line shirt]
  ∧ ∃ w' cp', initCartPage shirt_on_both_pages = Returns tt w'
      ∧ cartPage w' = Some cp'
      ∧ Forall2 shows_line (cartItemsContainer cp') [new_line shirt].
Proof.
  assert (persisted shirt_on_both_pages [new_line shirt]) as Hw
    by (vm_compute; reflexivity).
  assert (Forall plain_line [new_line shirt]) as Hplain
    by (apply Forall_singleton; repeat split).
  split; [exact Hw|]. split; [exact Hplain|].
  destruct (initCartPage_view shirt_on_both_pages [new_line shirt] _ Hw Hplain
              eq_refl)
    as (w' & cp' & Hcall & Hcp' & Hrows & _).
  exists w', cp'. split; [exact Hcall|]. split; [exact Hcp' | exact Hrows].
Defined.

(** ** Listeners *)

Lemma rows_rendered (cart : list CartLine) (w : World) (cp : CartPage) :
  Forall storable cart → cartPage w = Some cp →
  rows (rendered cart w)
  = match cart, removeModal cp with
    | [], _ => []
    | _, Some m =>
        listen_click (length (closures m)) <$> (listen_change <$> (item_row <$> cart))
    | _, None => listen_change <$> (item_row <$> cart)
    end.
Proof.
  intros H Hcp. unfold rows, rendered. simpl. rewrite Hcp. simpl.
  destruct cart as [|item cart]; [done|].
  unfold render_cart, cart_filled.
  change (cartItemsContainer (cart_show_totals (set_cartItemsContainer [] cp)))
    with (@nil Row).
  rewrite (foldl_row_step (item :: cart) 0 []) by done.
  unfold cart_bind_modal. simpl removeModal.
  by destruct (removeModal cp).
Qed.

(** X6.  On a cart that loads, every call of [initCartPage] on a cart
    page with the dialog keeps the [productIdToRemove] variables of the
    earlier calls, with their listeners on the buttons of the dialog, and
    leaves the dialog shown or hidden as it was.  When the cart has a line
    it adds one more variable, holding [null], and gives the click
    listener of that activation to every remove button of the new rows;
    when the cart is empty it adds none. *)
Theorem initCartPage_adds_an_activation (w : World) (cart : list CartLine)
    (cp : CartPage) (m : Modal) :
  persisted w cart → cartPage w = Some cp → removeModal cp = Some m →
  ∃ w', initCartPage w = Returns tt w'
    ∧ pending w' = closures m ++ (if bool_decide (cart = []) then [] else [None])
    ∧ modal_shown w' = modal_show m
    ∧ Forall (λ r, row_click r = Some (length (closures m))) (rows w').
Proof.
  intros Hw Hcp Hm. pose proof (persisted_storable _ _ Hw) as Hstorable.
  rewrite (initCartPage_persisted w cart Hw).
  eexists. split; [done|].
  assert (cartPage (rendered cart w) ≫= removeModal
          = Some {| modal_show := modal_show m;
                    closures := closures m
                      ++ (if bool_decide (cart = []) then [] else [None]) |})
    as Hmodal.
  { unfold rendered. simpl. rewrite Hcp. simpl.
    destruct cart as [|item cart].
    - simpl. rewrite Hm, app_nil_r. by destruct m.
    - rewrite bool_decide_eq_false_2 by done.
      unfold render_cart, cart_filled.
      destruct (foldl row_step _ _) as [subtotal rs].
      unfold cart_bind_modal. simpl removeModal. by rewrite Hm. }
  unfold pending, modal_shown. rewrite Hmodal. split_and!; [done..|].
  rewrite (rows_rendered cart w cp Hstorable Hcp), Hm.
  destruct cart as [|item cart]; [constructor|].
  rewrite Forall_fmap. by apply Forall_true.
Qed.

Lemma initCartPage_adds_an_activation_witness :
  persisted loaded_cart_page [new_line shirt; new_line dress]
  ∧ ∃ w', initCartPage loaded_cart_page = Returns tt w'
      ∧ pending w' = [None; None].
Proof.
  assert (persisted loaded_cart_page [new_line shirt; new_line dress]) as Hw
    by (vm_compute; reflexivity).
  split; [exact Hw|].
  destruct (initCartPage_adds_an_activation loaded_cart_page _ _ _ Hw
              eq_refl eq_refl) as (w' & Hcall & Hpending & _).
  exists w'. split; [exact Hcall | exact Hpending].
Defined.

(** X7.  On a cart page without the dialog, [initCartPage] gives no
    click listener to the remove buttons of the rows it renders: a click
    on any of them changes nothing. *)
Theorem remove_buttons_need_the_dialog (w : World) (cart : list CartLine)
    (cp : CartPage) :
  persisted w cart → cartPage w = Some cp → removeModal cp = None →
  ∃ w', initCartPage w = Returns tt w'
    ∧ length (rows w') = length cart
    ∧ ∀ row, dispatch (ClickRemove row) w' = w'.
Proof.
  intros Hw Hcp Hm. pose proof (persisted_storable _ _ Hw) as Hstorable.
  rewrite (initCartPage_persisted w cart Hw).
  eexists. split; [done|].
  rewrite (rows_rendered cart w cp Hstorable Hcp), Hm.
  split.
  - destruct cart; [done|]. by rewrite !length_fmap.
  - intros row. unfold dispatch.
    rewrite (rows_rendered cart w cp Hstorable Hcp), Hm.
    destruct cart as [|item cart]; [done|].
    rewrite !list_lookup_fmap.
    by destruct ((item :: cart) !! row).
Qed.

Lemma remove_buttons_need_the_dialog_witness :
  let w := set_cartPage
             (set_removeModal None <$> cartPage loaded_cart_page)
             loaded_cart_page in
  persisted w [new_line shirt; new_line dress]
  ∧ ∃ w', initCartPage w = Returns tt w'
      ∧ dispatch (ClickRemove 0) w' = w'.
Proof.
  cbv zeta.
  assert (persisted
            (set_cartPage (set_removeModal None <$> cartPage loaded_cart_page)
               loaded_cart_page)
            [new_line shirt; new_line dress]) as Hw
    by (vm_compute; reflexivity).
  split; [exact Hw|].
  destruct (remove_buttons_need_the_dialog _ _ _ Hw eq_refl eq_refl)
    as (w' & Hcall & _ & Hclick).
  exists w'. split; [exact Hcall | exact (Hclick 0%nat)].
Defined.

(** ** The engine, once more *)

Lemma filter_no_line (productId : string) (cart : list CartLine) :
  no_line productId cart →
  filter (λ item, item_id item ≠ productId) cart = cart.
Proof.
  induction 1 as [|item cart Hitem _ IH]; [done|].
  by rewrite filter_cons_True, IH.
Qed.

Lemma first_line_split (productId : string) (cart : list CartLine) :
  no_line productId cart
  ∨ ∃ l1 line l2,
      cart = l1 ++ line :: l2 ∧ no_line productId l1 ∧ item_id line = productId.
Proof.
  induction cart as [|item cart IH]; [left; constructor|].
  destruct (decide (item_id item = productId)) as [Heq|Hne].
  - right. exists [], item, cart. split_and!; [done|constructor|done].
  - destruct IH as [IH|(l1 & line & l2 & -> & Hl1 & Hline)].
    + left. by constructor.
    + right. exists (item :: l1), line, l2. split_and!; [done| |done].
      by constructor.
Qed.

Lemma engine_throws (w : World) :
  getCart w = Returns CartOther w ∨ getCart w = Throws SyntaxError w →
  ∃ e, (∀ product, addToCart product w = Throws e w)
    ∧ (∀ productId quantity, updateQuantity productId quantity w = Throws e w)
    ∧ (∀ productId, removeItemFromCart productId w = Throws e w).
Proof.
  intros [Hw|Hw].
  - exists TypeError. split_and!.
    + intros product. unfold addToCart. by rewrite (bind_Returns _ _ _ _ _ Hw).
    + intros productId quantity. unfold updateQuantity.
      rewrite (bind_Returns _ _ _ _ _ Hw).
      by destruct (js_lt quantity (Fin 1)).
    + intros productId. unfold removeItemFromCart.
      by rewrite (bind_Returns _ _ _ _ _ Hw).
  - exists SyntaxError. split_and!.
    + intros product. unfold addToCart. by rewrite (bind_Throws _ _ _ _ _ Hw).
    + intros productId quantity. unfold updateQuantity.
      by rewrite (bind_Throws _ _ _ _ _ Hw).
    + intros productId. unfold removeItemFromCart.
      by rewrite (bind_Throws _ _ _ _ _ Hw).
Qed.

(** X8.  In every world, [removeItemFromCart] does what [updateQuantity]
    with a quantity below 1 does, followed by the toast "Item removed from
    cart.": the same outcome in the same world, when the cart loads and
    when the load raises. *)
Theorem removeItemFromCart_is_updateQuantity_below_1 (w : World)
    (productId : string) (z : Z) :
  z < 1 →
  removeItemFromCart productId w
  = (updateQuantity productId (Fin z);; showToast "Item removed from cart.") w.
Proof.
  intros Hz. destruct (getCart_cases w) as [[cart Hw]|Hw].
  - rewrite (removeItemFromCart_persisted w cart) by done.
    erewrite bind_Returns by by apply updateQuantity_persisted.
    by rewrite requantified_below.
  - destruct (engine_throws w Hw) as (e & _ & Hupdate & Hremove).
    by rewrite Hremove, (bind_Throws _ _ _ _ _ (Hupdate productId (Fin z))).
Qed.

Lemma removeItemFromCart_is_updateQuantity_below_1_witness :
  0 < 1
  ∧ removeItemFromCart "p1" loaded_cart_page
    = (updateQuantity "p1" (Fin 0);; showToast "Item removed from cart.")
        loaded_cart_page.
Proof.
  split; [reflexivity|].
  apply (removeItemFromCart_is_updateQuantity_below_1 loaded_cart_page "p1" 0).
  reflexivity.
Defined.

(** X9.  When the cart key holds text that is not JSON, [addToCart],
    [updateQuantity] and [removeItemFromCart] raise a SyntaxError; when it
    holds JSON of a truthy value that is no array, they raise a TypeError.
    In both cases they leave the world exactly as it was: nothing is
    written to the store, no badge changes, no toast is shown and no page
    is rendered. *)
Theorem engine_calls_raise_and_change_nothing (w : World) (e : Exn) :
  (stored w = Some NotJson ∧ e = SyntaxError)
  ∨ (stored w = Some JsonOther ∧ e = TypeError) →
  (∀ product, addToCart product w = Throws e w)
  ∧ (∀ productId quantity, updateQuantity productId quantity w = Throws e w)
  ∧ (∀ productId, removeItemFromCart productId w = Throws e w).
Proof.
  intros [[Hw ->]|[Hw ->]].
  - assert (getCart w = Throws SyntaxError w) as Hget
      by (unfold getCart, stored in *; by rewrite Hw).
    split_and!.
    + intros product. unfold addToCart. by rewrite (bind_Throws _ _ _ _ _ Hget).
    + intros productId quantity. unfold updateQuantity.
      by rewrite (bind_Throws _ _ _ _ _ Hget).
    + intros productId. unfold removeItemFromCart.
      by rewrite (bind_Throws _ _ _ _ _ Hget).
  - assert (getCart w = Returns CartOther w) as Hget
      by (unfold getCart, stored in *; by rewrite Hw).
    split_and!.
    + intros product. unfold addToCart. by rewrite (bind_Returns _ _ _ _ _ Hget).
    + intros productId quantity. unfold updateQuantity.
      rewrite (bind_Returns _ _ _ _ _ Hget).
      by destruct (js_lt quantity (Fin 1)).
    + intros productId. unfold removeItemFromCart.
      by rewrite (bind_Returns _ _ _ _ _ Hget).
Qed.

Lemma engine_calls_raise_and_change_nothing_witness :
  ((stored (with_stored (Some JsonOther) loaded_cart_page) = Some NotJson
    ∧ TypeError = SyntaxError)
   ∨ (stored (with_stored (Some JsonOther) loaded_cart_page) = Some JsonOther
      ∧ TypeError = TypeError))
  ∧ updateQuantity "p1" (Fin 3) (with_stored (Some JsonOther) loaded_cart_page)
    = Throws TypeError (with_stored (Some JsonOther) loaded_cart_page).
Proof.
  assert ((stored (with_stored (Some JsonOther) loaded_cart_page) = Some NotJson
           ∧ TypeError = SyntaxError)
          ∨ (stored (with_stored (Some JsonOther) loaded_cart_page) = Some JsonOther
             ∧ TypeError = TypeError)) as H
    by (right; split; reflexivity).
  split; [exact H|].
  destruct (engine_calls_raise_and_change_nothing _ _ H) as (_ & Hupdate & _).
  exact (Hupdate "p1"%string (Fin 3)).
Defined.

(** X10.  On a cart that loads and has no line of the product's id,
    [addToCart] followed by [removeItemFromCart] of that id, or by
    [updateQuantity] of that id with 0, returns and leaves the cart that
    was there. *)
Theorem addToCart_then_remove (w : World) (cart : list CartLine)
    (product : Product) :
  persisted w cart → no_line (product_id product) cart →
  (∃ w', (addToCart product;; removeItemFromCart (product_id product)) w
         = Returns tt w' ∧ persisted w' cart)
  ∧ (∃ w', (addToCart product;; updateQuantity (product_id product) (Fin 0)) w
           = Returns tt w' ∧ persisted w' cart).
Proof.
  intros Hw Hcart.
  destruct (addToCart_step w cart product Hw) as (w1 & Hadd & Hw1).
  rewrite added_new in Hw1 by done.
  assert (filter (λ item, item_id item ≠ product_id product)
            (cart ++ [new_line product]) = cart) as Hfilter.
  { rewrite filter_app, filter_no_line by done.
    rewrite filter_cons_False by (simpl; tauto). apply app_nil_r. }
  split.
  - destruct (removeItemFromCart_step w1 _ (product_id product) Hw1)
      as (w' & Hremove & Hw').
    exists w'. rewrite (bind_Returns _ _ _ _ _ Hadd).
    split; [done|]. by rewrite Hfilter in Hw'.
  - destruct (updateQuantity_step w1 _ (product_id product) (Fin 0) Hw1)
      as (w' & Hupdate & _ & _ & Hw').
    exists w'. rewrite (bind_Returns _ _ _ _ _ Hadd).
    split; [done|].
    rewrite requantified_below, Hfilter in Hw' by done.
    rewrite reload_storable_list in Hw'; [done|].
    by eapply persisted_storable.
Qed.

Lemma addToCart_then_remove_witness :
  persisted loaded_cart_page [new_line shirt; new_line dress]
  ∧ no_line "p3" [new_line shirt; new_line dress]
  ∧ ∃ w', (addToCart
             {| product_id := "p3"; product_name := "Scarf";
                product_price := 800; product_img := "z" |};;
           removeItemFromCart "p3") loaded_cart_page = Returns tt w'
      ∧ persisted w' [new_line shirt; new_line dress].
Proof.
  assert (persisted loaded_cart_page [new_line shirt; new_line dress]) as Hw
    by (vm_compute; reflexivity).
  assert (no_line "p3" [new_line shirt; new_line dress]) as Hcart
    by (repeat constructor; discriminate).
  split; [exact Hw|]. split; [exact Hcart|].
  destruct (addToCart_then_remove loaded_cart_page _
              {| product_id := "p3"; product_name := "Scarf";
                 product_price := 800; product_img := "z" |} Hw Hcart)
    as (Hremove & _).
  exact Hremove.
Defined.





Lemma valid_storable (item : CartLine) : valid_quantity item → storable item.
Proof. unfold storable. intros [H|(z & _ & H)]; rewrite H; discriminate. Qed.

Lemma valid_increment (item : CartLine) :
  valid_quantity item → valid_quantity (increment_quantity item).
Proof.
  intros H. rewrite storable_increment by by apply valid_storable.
  right. exists (quantity_Z item + 1). split; [|done].
  unfold quantity_Z. destruct H as [H|(z & Hz & H)]; rewrite H; lia.
Qed.

Lemma valid_reload_set (quantity : Number) (item : CartLine) :
  js_lt quantity (Fin 1) = false →
  valid_quantity (reload (set_quantity (VNumber quantity) item)).
Proof.
  destruct quantity as [z|]; simpl; intros Hq.
  - right. exists z. split; [by apply Z.ltb_ge|done].
  - by left.
Qed.

Lemma valid_added (product : Product) (cart : list CartLine) :
  Forall valid_quantity cart → Forall valid_quantity (added product cart).
Proof.
  intros H. unfold added.
  destruct (list_find _ cart) as [[i existingItem]|] eqn:Hfind.
  - apply list_find_Some in Hfind as (Hi & _ & _).
    apply Forall_insert; [done|].
    by eapply valid_increment, (Forall_lookup_1 _ _ _ _ H).
  - apply Forall_app. split; [done|]. apply Forall_singleton.
    right. exists 1. by split.
Qed.

Lemma valid_requantified (productId : string) (quantity : Number)
    (cart : list CartLine) :
  Forall valid_quantity cart →
  Forall valid_quantity (reload <$> requantified productId quantity cart).
Proof.
  intros H. unfold requantified.
  destruct (js_lt quantity (Fin 1)) eqn:Hq.
  - rewrite reload_storable_list.
    + rewrite !Forall_forall in *. intros x [_ Hx]%list_elem_of_filter. by apply H.
    + apply storable_filter. eapply Forall_impl; [exact H|]. apply valid_storable.
  - destruct (list_find _ cart) as [[i item]|] eqn:Hfind.
    + rewrite list_fmap_insert. apply Forall_insert; [|by apply valid_reload_set].
      rewrite reload_storable_list; [done|].
      eapply Forall_impl; [exact H|]. apply valid_storable.
    + rewrite reload_storable_list; [done|].
      eapply Forall_impl; [exact H|]. apply valid_storable.
Qed.

(** X12.  The engine keeps every quantity valid.  If the cart loads and
    each quantity in it is 1 or more, or [null], then after [addToCart],
    [updateQuantity] with any number, [NaN] included, and
    [removeItemFromCart] the cart loads again and each quantity in it is 1
    or more, or [null]: no call stores a quantity below 1. *)
Theorem engine_keeps_quantities_valid (w : World) (cart : list CartLine) :
  persisted w cart → Forall valid_quantity cart →
  (∀ product, ∃ w' cart',
      addToCart product w = Returns tt w'
      ∧ persisted w' cart' ∧ Forall valid_quantity cart')
  ∧ (∀ productId quantity, ∃ w' cart',
      updateQuantity productId quantity w = Returns tt w'
      ∧ persisted w' cart' ∧ Forall valid_quantity cart')
  ∧ (∀ productId, ∃ w' cart',
      removeItemFromCart productId w = Returns tt w'
      ∧ persisted w' cart' ∧ Forall valid_quantity cart').
Proof.
  intros Hw Hvalid. split_and!.
  - intros product.
    destruct (addToCart_step w cart product Hw) as (w' & Hcall & Hw').
    exists w', (added product cart). split_and!; [done..|].
    by apply valid_added.
  - intros productId quantity.
    destruct (updateQuantity_step w cart productId quantity Hw)
      as (w' & Hcall & _ & _ & Hw').
    exists w', (reload <$> requantified productId quantity cart).
    split_and!; [done..|]. by apply valid_requantified.
  - intros productId.
    destruct (removeItemFromCart_step w cart productId Hw) as (w' & Hcall & Hw').
    exists w', (filter (λ item, item_id item ≠ productId) cart).
    split_and!; [done..|].
    rewrite !Forall_forall in *. intros x [_ Hx]%list_elem_of_filter.
    by apply Hvalid.
Qed.

Lemma engine_keeps_quantities_valid_witness :
  persisted loaded_cart_page [new_line shirt; new_line dress]
  ∧ Forall valid_quantity [new_line shirt; new_line dress]
  ∧ ∃ w' cart',
      updateQuantity "p1" NaN loaded_cart_page = Returns tt w'
      ∧ persisted w' cart' ∧ Forall valid_quantity cart'.
Proof.
  assert (persisted loaded_cart_page [new_line shirt; new_line dress]) as Hw
    by (vm_compute; reflexivity).
  assert (Forall valid_quantity [new_line shirt; new_line dress]) as Hvalid.
  { apply Forall_cons. split; [|apply Forall_singleton];
      right; exists 1; (split; [discriminate | reflexivity]). }
  split; [exact Hw|]. split; [exact Hvalid|].
  destruct (engine_keeps_quantities_valid loaded_cart_page _ Hw Hvalid)
    as (_ & Hupdate & _).
  exact (Hupdate "p1"%string NaN).
Defined.

(** X13.  On a cart that loads and has no line of the given id,
    [removeItemFromCart] returns and leaves the cart as it was, and still
    adds the toast "Item removed from cart." to a page that has the toast
    container. *)
Theorem removeItemFromCart_absent_still_toasts (w : World)
    (cart : list CartLine) (productId : string) (toasts : list string) :
  persisted w cart → no_line productId cart → toastContainer w = Some toasts →
  ∃ w', removeItemFromCart productId w = Returns tt w'
    ∧ persisted w' cart
    ∧ toastContainer w' = Some (toasts ++ ["Item removed from cart."%string]).
Proof.
  intros Hw Hcart Htoasts.
  rewrite (removeItemFromCart_persisted w cart) by done.
  rewrite filter_no_line by done.
  eexists. split; [done|]. split.
  - apply persisted_toasted, persisted_rendered, persisted_saved_storable.
    by eapply persisted_storable.
  - unfold toasted. simpl. by rewrite Htoasts.
Qed.

Lemma removeItemFromCart_absent_still_toasts_witness :
  persisted loaded_cart_page [new_line shirt; new_line dress]
  ∧ no_line "p3" [new_line shirt; new_line dress]
  ∧ toastContainer loaded_cart_page = Some []
  ∧ ∃ w', removeItemFromCart "p3" loaded_cart_page = Returns tt w'
      ∧ persisted w' [new_line shirt; new_line dress]
      ∧ toastContainer w' = Some ([] ++ ["Item removed from cart."%string]).
Proof.
  assert (persisted loaded_cart_page [new_line shirt; new_line dress]) as Hw
    by (vm_compute; reflexivity).
  assert (no_line "p3" [new_line shirt; new_line dress]) as Hcart
    by (repeat constructor; discriminate).
  split; [exact Hw|]. split; [exact Hcart|]. split; [reflexivity|].
  apply (removeItemFromCart_absent_still_toasts loaded_cart_page _ "p3" []
           Hw Hcart eq_refl).
Defined.

Lemma set_quantity_reload_set (q q' : JsValue) (item : CartLine) :
  set_quantity q (reload (set_quantity q' item)) = set_quantity q item.
Proof. reflexivity. Qed.

Lemma requantified_after (productId : string) (n1 n2 : Number)
    (cart : list CartLine) :
  Forall storable cart → js_lt n1 (Fin 1) = false →
  requantified productId n2 (reload <$> requantified productId n1 cart)
  = requantified productId n2 cart.
Proof.
  intros Hstorable Hn1.
  destruct (first_line_split productId cart)
    as [Hcart|(l1 & line & l2 & -> & Hl1 & Hline)].
  - by rewrite (requantified_absent productId n1 cart), reload_storable_list.
  - apply Forall_app in Hstorable as [H1 H2]. inversion H2 as [|? ? _ H2']; subst.
    rewrite (requantified_existing _ n1) by done.
    rewrite fmap_app, fmap_cons, !reload_storable_list by done.
    unfold requantified. destruct (js_lt n2 (Fin 1)).
    + rewrite !filter_app, !filter_cons_False; [done|by intros []..].
    + rewrite !find_first by done. rewrite !insert_middle.
      by rewrite set_quantity_reload_set.
Qed.

(** X14.  The last quantity wins.  On a cart that loads, [updateQuantity]
    with a number that is not below 1, followed by [updateQuantity] for
    the same id with any number, returns and leaves the cart that the
    second call alone would have left. *)
Theorem updateQuantity_last_wins (w : World) (cart : list CartLine)
    (productId : string) (n1 n2 : Number) :
  persisted w cart → js_lt n1 (Fin 1) = false →
  ∃ w1 w2 cart',
    (updateQuantity productId n1;; updateQuantity productId n2) w = Returns tt w1
    ∧ updateQuantity productId n2 w = Returns tt w2
    ∧ persisted w1 cart' ∧ persisted w2 cart'.
Proof.
  intros Hw Hn1. pose proof (persisted_storable _ _ Hw) as Hstorable.
  destruct (updateQuantity_step w cart productId n1 Hw)
    as (wa & Hfirst & _ & _ & Hwa).
  destruct (updateQuantity_step wa _ productId n2 Hwa)
    as (w1 & Hsecond & _ & _ & Hw1).
  destruct (updateQuantity_step w cart productId n2 Hw)
    as (w2 & Halone & _ & _ & Hw2).
  rewrite requantified_after in Hw1 by done.
  exists w1, w2, (reload <$> requantified productId n2 cart).
  split_and!; [|done..]. by rewrite (bind_Returns _ _ _ _ _ Hfirst).
Qed.

Lemma updateQuantity_last_wins_witness :
  persisted loaded_cart_page [new_line shirt; new_line dress]
  ∧ js_lt (Fin 5) (Fin 1) = false
  ∧ ∃ w1 w2 cart',
      (updateQuantity "p1" (Fin 5);; updateQuantity "p1" (Fin 2)) loaded_cart_page
      = Returns tt w1
      ∧ updateQuantity "p1" (Fin 2) loaded_cart_page = Returns tt w2
      ∧ persisted w1 cart' ∧ persisted w2 cart'.
Proof.
  assert (persisted loaded_cart_page [new_line shirt; new_line dress]) as Hw
    by (vm_compute; reflexivity).
  split; [exact Hw|]. split; [reflexivity|].
  apply (updateQuantity_last_wins loaded_cart_page _ "p1" (Fin 5) (Fin 2) Hw eq_refl).
Defined.

(** ** Page load *)

Lemma persisted_set_cartCountElements (b : list Badge) (w : World)
    (cart : list CartLine) :
  persisted w cart → persisted (set_cartCountElements b w) cart.
Proof.
  unfold persisted, getCart. simpl. intros H.
  destruct (JSON_parse_or_empty _); congruence.
Qed.

Lemma onDOMContentLoaded_persisted (w : World) (cart : list CartLine) :
  persisted w cart →
  onDOMContentLoaded w = Returns tt
    (set_checkoutPage (render_checkout cart <$> checkoutPage w)
       (rendered cart
          (set_cartCountElements
             (show_count (Fin (sum_quantity cart)) <$> cartCountElements w) w))).
Proof.
  intros Hw. unfold onDOMContentLoaded.
  erewrite bind_Returns by by apply updateCartCount_persisted.
  rewrite (foldl_add_quantity cart 0), Z.add_0_l by by eapply persisted_storable.
  erewrite bind_Returns
    by by apply initCartPage_persisted, persisted_set_cartCountElements.
  by rewrite (initCheckoutPage_persisted _ cart)
    by by apply persisted_rendered, persisted_set_cartCountElements.
Qed.

(** X15.  When the cart key holds text that is not JSON, or JSON of a
    truthy value that is no array, the handler of [DOMContentLoaded]
    raises in [updateCartCount] and leaves the world as it was: no badge
    is updated, nothing is rendered and no listener is added.  After
    [clearCart], which returns all the same, the handler returns. *)
Theorem corrupt_store_stops_the_load (w : World) :
  stored w = Some NotJson ∨ stored w = Some JsonOther →
  (∃ e, onDOMContentLoaded w = Throws e w)
  ∧ ∃ w1 w2, clearCart w = Returns tt w1 ∧ onDOMContentLoaded w1 = Returns tt w2.
Proof.
  intros Hw. split.
  - unfold onDOMContentLoaded, updateCartCount, getCart, stored in *.
    destruct Hw as [Hw|Hw]; eexists; unfold mbind, JS_bind; by rewrite Hw.
  - eexists _, _. split; [apply clearCart_returns|].
    by apply (onDOMContentLoaded_persisted _ []).
Qed.

Lemma corrupt_store_stops_the_load_witness :
  (stored (with_stored (Some NotJson) fresh_cart_page) = Some NotJson
   ∨ stored (with_stored (Some NotJson) fresh_cart_page) = Some JsonOther)
  ∧ ∃ e, onDOMContentLoaded (with_stored (Some NotJson) fresh_cart_page)
         = Throws e (with_stored (Some NotJson) fresh_cart_page).
Proof.
  split; [left; reflexivity|].
  apply (corrupt_store_stops_the_load (with_stored (Some NotJson) fresh_cart_page)).
  left; reflexivity.
Defined.

(** ** The table and the badges follow the store *)

Lemma show_count_shows (total : Z) (el : Badge) :
  badge_shows total (show_count (Fin total) el).
Proof.
  unfold badge_shows, show_count, js_gt, js_lt.
  destruct (Z.ltb_spec 0 total); case_decide; (done || lia).
Qed.

Lemma persisted_storage (w w' : World) (cart : list CartLine) :
  localStorage w' = localStorage w → persisted w cart → persisted w' cart.
Proof.
  unfold persisted, getCart. intros -> H.
  destruct (JSON_parse_or_empty _); congruence.
Qed.

Lemma synced_frame (w w' : World) :
  localStorage w' = localStorage w →
  cartCountElements w' = cartCountElements w →
  rows w' = rows w →
  is_Some (cartPage w') →
  synced w → synced w'.
Proof.
  intros Hs Hb Hr Hp (_ & cart & Hw & Hrows & Hbadges).
  split; [done|]. exists cart. unfold in_sync. rewrite Hb, Hr.
  split_and!; [|done..]. by eapply persisted_storage.
Qed.

Lemma item_rows_show (cart : list CartLine) :
  Forall storable cart → Forall2 shows_line (item_row <$> cart) cart.
Proof.
  intros H. apply Forall2_fmap_l, Forall_Forall2_diag.
  eapply Forall_impl; [exact H|]. intros x Hx.
  unfold shows_line. split_and!; try done. by apply item_subtotal_storable.
Qed.

Lemma rows_rendered_show (cart : list CartLine) (w : World) :
  is_Some (cartPage w) → Forall storable cart →
  Forall2 shows_line (rows (rendered cart w)) cart.
Proof.
  intros [cp Hcp] H. rewrite (rows_rendered cart w cp H Hcp).
  destruct cart as [|item cart]; [constructor|].
  destruct (removeModal cp);
    repeat (apply Forall2_shows_fmap; [by intros r x Hr|]);
    by apply item_rows_show.
Qed.

Lemma synced_saved_rendered (c : list CartLine) (w : World) :
  is_Some (cartPage w) → synced (rendered (reload <$> c) (saved c w)).
Proof.
  intros Hcp. split.
  - destruct Hcp as [cp Hcp]. unfold rendered. simpl. by rewrite Hcp.
  - exists (reload <$> c). split_and!.
    + apply persisted_rendered, persisted_saved.
    + apply rows_rendered_show; [done|apply storable_reload].
    + unfold rendered, saved. simpl.
      rewrite (foldl_add_quantity _ 0), Z.add_0_l by apply storable_reload.
      rewrite Forall_fmap. apply Forall_true. intros el. apply show_count_shows.
Qed.

Lemma synced_modify_modal (f : Modal → Modal) (w : World) :
  synced w → synced (world_after (modify_modal f w)).
Proof.
  intros H. rewrite modify_modal_world. simpl.
  apply (synced_frame w); [done..| | |done].
  - unfold rows. simpl. by destruct (cartPage w).
  - simpl. destruct H as [[cp Hcp] _]. by rewrite Hcp.
Qed.

Lemma synced_toasted (message : string) (w : World) :
  synced w → synced (toasted message w).
Proof.
  intros H. unfold toasted. destruct (toastContainer w); [|done].
  by apply (synced_frame w); [..|destruct H|].
Qed.

Lemma synced_updateQuantity (productId : string) (quantity : Number) (w : World) :
  synced w → synced (world_after (updateQuantity productId quantity w)).
Proof.
  intros (Hp & cart & Hw & _).
  rewrite (updateQuantity_persisted w cart) by done.
  by apply synced_saved_rendered.
Qed.

Lemma synced_removeItemFromCart (productId : string) (w : World) :
  synced w → synced (world_after (removeItemFromCart productId w)).
Proof.
  intros (Hp & cart & Hw & _).
  rewrite (removeItemFromCart_persisted w cart) by done.
  by apply synced_toasted, synced_saved_rendered.
Qed.

Lemma synced_confirm_listener (k : nat) (w : World) :
  synced w → synced (world_after (confirm_listener k w)).
Proof.
  intros H. unfold confirm_listener.
  erewrite bind_Returns by reflexivity.
  destruct (truthy (productIdToRemove k w)).
  - pose proof H as (Hp & cart & Hw & _).
    pose proof (synced_removeItemFromCart
                  (default ""%string (productIdToRemove k w)) w H) as H'.
    pose proof (removeItemFromCart_persisted w cart
                  (default ""%string (productIdToRemove k w)) Hw) as Hremove.
    rewrite Hremove in H'. rewrite (bind_Returns _ _ _ _ _ Hremove).
    by apply (synced_modify_modal _ _ H').
  - erewrite bind_Returns by reflexivity.
    by apply synced_modify_modal.
Qed.

Lemma synced_listeners (listener : nat → JS unit) (ks : list nat) (w : World) :
  (∀ k w, synced w → synced (world_after (listener k w))) →
  synced w → synced (foldl (λ w k, world_after (listener k w)) w ks).
Proof.
  intros Hstep. revert w. induction ks as [|k ks IH]; intros w H; [done|].
  simpl. by apply IH, Hstep.
Qed.

Lemma synced_dispatch (e : Event) (w : World) :
  synced w → synced (dispatch e w).
Proof.
  intros H. destruct e as [row value|row| | |]; simpl.
  - destruct (rows w !! row) as [r|]; [|done].
    destruct (row_change r); [|done]. by apply synced_updateQuantity.
  - destruct (rows w !! row) as [r|]; [|done].
    destruct (row_click r) as [k|]; [|done]. by apply synced_modify_modal.
  - apply synced_listeners; [apply synced_confirm_listener|done].
  - apply synced_listeners; [|done]. intros k w'. apply synced_modify_modal.
  - apply synced_listeners; [|done]. intros k w'. apply synced_modify_modal.
Qed.

Lemma plain_reload (item : CartLine) : plain_line item → plain_line (reload item).
Proof. by intros (Hid & Hname & Himg). Qed.

Lemma plain_filter (P : CartLine → Prop) `{!∀ x, Decision (P x)}
    (cart : list CartLine) :
  Forall plain_line cart → Forall plain_line (filter P cart).
Proof.
  rewrite !Forall_forall. intros Hall x [_ Hx]%list_elem_of_filter. by apply Hall.
Qed.

Lemma plain_requantified (productId : string) (quantity : Number)
    (cart : list CartLine) :
  Forall plain_line cart →
  Forall plain_line (reload <$> requantified productId quantity cart).
Proof.
  intros Hplain. rewrite Forall_fmap. unfold requantified.
  destruct (js_lt quantity (Fin 1)).
  - eapply Forall_impl; [by apply plain_filter|]. apply plain_reload.
  - destruct (list_find _ cart) as [[i item]|] eqn:Hfind.
    + apply list_find_Some in Hfind as (Hi & _ & _).
      apply Forall_insert.
      * eapply Forall_impl; [exact Hplain|]. apply plain_reload.
      * by apply (Forall_lookup_1 _ _ _ _ Hplain Hi).
    + eapply Forall_impl; [exact Hplain|]. apply plain_reload.
Qed.

Lemma plain_store_modify_modal (f : Modal → Modal) (w : World) :
  plain_store w → plain_store (world_after (modify_modal f w)).
Proof.
  intros (cart & Hw & Hplain). exists cart. split; [|done].
  by apply persisted_modify_modal.
Qed.

Lemma plain_store_updateQuantity (productId : string) (quantity : Number)
    (w : World) :
  plain_store w → plain_store (world_after (updateQuantity productId quantity w)).
Proof.
  intros (cart & Hw & Hplain).
  destruct (updateQuantity_step w cart productId quantity Hw)
    as (w' & Hcall & _ & _ & Hw').
  rewrite Hcall. eexists. split; [exact Hw'|]. by apply plain_requantified.
Qed.

Lemma plain_store_removeItemFromCart (productId : string) (w : World) :
  plain_store w → plain_store (world_after (removeItemFromCart productId w)).
Proof.
  intros (cart & Hw & Hplain).
  destruct (removeItemFromCart_step w cart productId Hw) as (w' & Hcall & Hw').
  rewrite Hcall. eexists. split; [exact Hw'|]. by apply plain_filter.
Qed.

Lemma plain_store_confirm_listener (k : nat) (w : World) :
  plain_store w → plain_store (world_after (confirm_listener k w)).
Proof.
  intros H. unfold confirm_listener.
  erewrite bind_Returns by reflexivity.
  destruct (truthy (productIdToRemove k w)).
  - pose proof H as (cart & Hw & _).
    pose proof (plain_store_removeItemFromCart
                  (default ""%string (productIdToRemove k w)) w H) as H'.
    pose proof (removeItemFromCart_persisted w cart
                  (default ""%string (productIdToRemove k w)) Hw) as Hremove.
    rewrite Hremove in H'. rewrite (bind_Returns _ _ _ _ _ Hremove).
    by apply (plain_store_modify_modal _ _ H').
  - erewrite bind_Returns by reflexivity.
    by apply plain_store_modify_modal.
Qed.

Lemma plain_store_listeners (listener : nat → JS unit) (ks : list nat)
    (w : World) :
  (∀ k w, plain_store w → plain_store (world_after (listener k w))) →
  plain_store w → plain_store (foldl (λ w k, world_after (listener k w)) w ks).
Proof.
  intros Hstep. revert w. induction ks as [|k ks IH]; intros w H; [done|].
  simpl. by apply IH, Hstep.
Qed.

Lemma plain_store_dispatch (e : Event) (w : World) :
  plain_store w → plain_store (dispatch e w).
Proof.
  intros H. destruct e as [row value|row| | |]; simpl.
  - destruct (rows w !! row) as [r|]; [|done].
    destruct (row_change r); [|done]. by apply plain_store_updateQuantity.
  - destruct (rows w !! row) as [r|]; [|done].
    destruct (row_click r) as [k|]; [|done]. by apply plain_store_modify_modal.
  - apply plain_store_listeners; [apply plain_store_confirm_listener|done].
  - apply plain_store_listeners; [|done]. intros k w'.
    apply plain_store_modify_modal.
  - apply plain_store_listeners; [|done]. intros k w'.
    apply plain_store_modify_modal.
Qed.

(** X16.  The table and the badges follow the store.  Take a page with
    the cart table and a cart that loads and whose ids, names and images
    hold no character that is special in HTML.  The handler of
    [DOMContentLoaded] returns and leaves rows that show the lines of the
    cart, one by one, and badges that show the sum of its quantities or
    are hidden.  After any sequence of quantity changes with ASCII values
    that read as safe integers or as [NaN], remove clicks, Confirm, Cancel
    and close clicks, the cart still loads, its strings are still plain,
    and rows and badges show it. *)
Theorem cart_page_stays_in_sync (w : World) (cart : list CartLine)
    (es : list Event) :
  persisted w cart → Forall plain_line cart → is_Some (cartPage w) →
  Forall safe_event es →
  ∃ w0, onDOMContentLoaded w = Returns tt w0
    ∧ in_sync w0 cart
    ∧ ∃ cart', in_sync (dispatch_all es w0) cart' ∧ Forall plain_line cart'.
Proof.
  intros Hw Hplain Hcp _.
  rewrite (onDOMContentLoaded_persisted w cart Hw).
  eexists. split; [done|].
  set (w1 := set_cartCountElements _ w).
  assert (in_sync (set_checkoutPage (render_checkout cart <$> checkoutPage w)
                     (rendered cart w1)) cart) as Hsync.
  { split_and!.
    - by apply persisted_set_checkoutPage, persisted_rendered,
        persisted_set_cartCountElements.
    - apply (rows_rendered_show cart w1); [done|by eapply persisted_storable].
    - simpl. rewrite Forall_fmap. apply Forall_true. intros el.
      apply show_count_shows. }
  split; [exact Hsync|].
  assert (synced (set_checkoutPage (render_checkout cart <$> checkoutPage w)
                    (rendered cart w1))) as Hsynced.
  { split; [|by exists cart]. destruct Hcp as [cp Hcp]. simpl. by rewrite Hcp. }
  assert (plain_store (set_checkoutPage (render_checkout cart <$> checkoutPage w)
                         (rendered cart w1))) as Hstore.
  { exists cart. split; [|done]. by destruct Hsync. }
  revert Hsynced Hstore. clear Hsync.
  generalize (set_checkoutPage (render_checkout cart <$> checkoutPage w)
                (rendered cart w1)).
  unfold dispatch_all. induction es as [|e es IH]; intros w0 Hw0 Hs0.
  - destruct Hw0 as (_ & c1 & Hsync1). destruct Hs0 as (c2 & Hc2 & Hplain2).
    exists c1. split; [done|].
    destruct Hsync1 as (Hc1 & _). by rewrite (persisted_inj _ _ _ Hc1 Hc2).
  - simpl. apply IH; [by apply synced_dispatch | by apply plain_store_dispatch].
Qed.

Lemma cart_page_stays_in_sync_witness :
  let w := with_stored (Some (JSON_stringify [new_line shirt; new_line dress]))
             fresh_cart_page in
  persisted w [new_line shirt; new_line dress]
  ∧ Forall plain_line [new_line shirt; new_line dress]
  ∧ is_Some (cartPage w)
  ∧ Forall safe_event [ClickRemove 0; Change 1 "2"; ClickConfirm]
  ∧ ∃ w0, onDOMContentLoaded w = Returns tt w0
      ∧ ∃ cart',
          in_sync (dispatch_all [ClickRemove 0; Change 1 "2"; ClickConfirm] w0)
            cart'.
Proof.
  cbv zeta.
  assert (persisted
            (with_stored (Some (JSON_stringify [new_line shirt; new_line dress]))
               fresh_cart_page) [new_line shirt; new_line dress]) as Hw
    by (vm_compute; reflexivity).
  assert (Forall plain_line [new_line shirt; new_line dress]) as Hplain
    by (apply Forall_cons; split; [|apply Forall_singleton]; repeat split).
  assert (is_Some (cartPage
            (with_stored (Some (JSON_stringify [new_line shirt; new_line dress]))
               fresh_cart_page))) as Hcp by (eexists; reflexivity).
  assert (Forall safe_event [ClickRemove 0; Change 1 "2"; ClickConfirm]) as Hsafe.
  { apply Forall_cons. split; [exact I|].
    apply Forall_cons. split; [|apply Forall_singleton; exact I].
    split; [reflexivity|]. unfold safe_integer. vm_compute. discriminate. }
  split; [exact Hw|]. split; [exact Hplain|]. split; [exact Hcp|].
  split; [exact Hsafe|].
  destruct (cart_page_stays_in_sync _ _
              [ClickRemove 0; Change 1 "2"; ClickConfirm] Hw Hplain Hcp Hsafe)
    as (w0 & Hload & _ & cart' & Hevents & _).
  exists w0. split; [exact Hload|]. exists cart'. exact Hevents.
Defined.

(** ** The quantity input of a row *)

Lemma NoDup_split_at (cart : list CartLine) (i : nat) (line : CartLine) :
  NoDup (ids cart) → cart !! i = Some line →
  ∃ l1 l2, cart = l1 ++ line :: l2 ∧ length l1 = i
    ∧ no_line (item_id line) l1 ∧ no_line (item_id line) l2.
Proof.
  intros Hnodup Hi.
  exists (take i cart), (drop (S i) cart).
  pose proof (take_drop_middle cart i line Hi) as Hsplit.
  split; [done|]. split.
  { apply length_take_le. apply lookup_lt_Some in Hi. lia. }
  rewrite <- Hsplit in Hnodup. unfold ids in Hnodup.
  rewrite fmap_app, fmap_cons in Hnodup.
  apply NoDup_app in Hnodup as (_ & Hdisjoint & [Hl2 _]%NoDup_cons).
  split; apply Forall_forall; intros x Hx Heq.
  - apply (Hdisjoint (item_id x)); [by apply list_elem_of_fmap_2|].
    rewrite Heq. left.
  - apply Hl2. rewrite <- Heq. by apply list_elem_of_fmap_2.
Qed.

Lemma modal_shown_rendered (cart : list CartLine) (w : World) :
  modal_shown (rendered cart w) = modal_shown w.
Proof.
  unfold modal_shown, rendered. simpl.
  destruct (cartPage w) as [cp|]; [|done]. simpl.
  destruct cart as [|item cart]; simpl; [by destruct (removeModal cp)|].
  unfold cart_bind_modal, cart_filled.
  destruct (foldl row_step _ _) as [subtotal rs]. simpl.
  by destruct (removeModal cp).
Qed.

(** X17.  The quantity input of a row edits the line the row shows.  In
    a world whose rows show a cart that loads and has one line per id, a
    change of the input of row [i] to a value that [parseInt] reads as the
    safe integer [q] overwrites the quantity of line [i] with [q] when [q]
    is 1 or more, the other fields of the line staying as they were, and
    takes line [i] out of the cart when [q] is below 1; no other line
    changes, and the removal happens without the dialog: the dialog stays
    shown or hidden as it was. *)
Theorem Change_edits_the_line_of_the_row (w : World) (cart : list CartLine)
    (i : nat) (r : Row) (value : string) (q : Z) :
  in_sync w cart → NoDup (ids cart) →
  rows w !! i = Some r → row_change r = true →
  parseInt10 value = Fin q → safe_integer q →
  ∃ line, cart !! i = Some line
    ∧ (1 ≤ q →
         persisted (dispatch (Change i value) w)
           (<[i := {| item_id := item_id line; item_name := item_name line;
                      item_price := item_price line; item_img := item_img line;
                      item_quantity := VNumber (Fin q) |}]> cart))
    ∧ (q < 1 → persisted (dispatch (Change i value) w) (delete i cart))
    ∧ modal_shown (dispatch (Change i value) w) = modal_shown w.
Proof.
  intros (Hw & Hrows & _) Hnodup Hr Hchange Hvalue _.
  destruct (Forall2_lookup_l _ _ _ _ _ Hrows Hr) as (line & Hline & Hshows).
  destruct Hshows as (Hid & _).
  exists line. split; [done|].
  destruct (NoDup_split_at cart i line Hnodup Hline)
    as (l1 & l2 & -> & <- & Hl1 & Hl2).
  pose proof (persisted_storable _ _ Hw) as Hstorable.
  unfold dispatch. rewrite Hr, Hchange, Hvalue, Hid.
  rewrite (updateQuantity_persisted w _ _ _ Hw). simpl world_after.
  split_and!.
  - intros Hq. rewrite requantified_existing by (done || by apply Z.ltb_ge).
    rewrite insert_middle. apply persisted_rendered.
    apply (persisted_saved_storable
             (l1 ++ set_quantity (VNumber (Fin q)) line :: l2)).
    apply Forall_app in Hstorable as [H1 H2]. inversion H2; subst.
    apply Forall_app. split; [done|]. constructor; [|done].
    apply storable_set_quantity.
  - intros Hq. rewrite requantified_below by done.
    rewrite filter_app, filter_cons_False, !filter_no_line, delete_middle
      by (done || by intros []).
    apply persisted_rendered, persisted_saved_storable.
    apply Forall_app in Hstorable as [H1 H2]. inversion H2; subst.
    by apply Forall_app.
  - by rewrite modal_shown_rendered.
Qed.

Lemma Change_edits_the_line_of_the_row_witness :
  in_sync loaded_cart_page [new_line shirt; new_line dress]
  ∧ NoDup (ids [new_line shirt; new_line dress])
  ∧ parseInt10 "7" = Fin 7
  ∧ safe_integer 7
  ∧ persisted (dispatch (Change 1 "7") loaded_cart_page)
      [{| item_id := "p1"; item_name := "Shirt"; item_price := 1500;
          item_img := "x"; item_quantity := VNumber (Fin 1) |};
       {| item_id := "p2"; item_name := "Dress"; item_price := 2000;
          item_img := "y"; item_quantity := VNumber (Fin 7) |}].
Proof.
  assert (in_sync loaded_cart_page [new_line shirt; new_line dress]) as Hsync.
  { split_and!.
    - vm_compute; reflexivity.
    - repeat constructor.
    - repeat constructor. }
  assert (NoDup (ids [new_line shirt; new_line dress])) as Hnodup.
  { apply NoDup_cons. split; [|apply NoDup_singleton].
    intros Heq%list_elem_of_singleton. discriminate Heq. }
  assert (safe_integer 7) as Hsafe
    by (unfold safe_integer; vm_compute; discriminate).
  split; [exact Hsync|]. split; [exact Hnodup|]. split; [reflexivity|].
  split; [exact Hsafe|].
  destruct (Change_edits_the_line_of_the_row loaded_cart_page _ 1 _ "7" 7
              Hsync Hnodup eq_refl eq_refl eq_refl Hsafe)
    as (line & Hline & Hover & _).
  injection Hline as <-.
  apply Hover. discriminate.
Defined.

(** ** Confirm closes the dialog *)

Lemma pending_rendered_nulls (cart : list CartLine) (w : World) :
  ∃ extra, pending (rendered cart w) = pending w ++ extra
    ∧ Forall (λ v, v = None) extra.
Proof.
  unfold pending, rendered. simpl.
  destruct (cartPage w) as [p|]; [|by exists []]. simpl.
  destruct cart as [|item cart]; simpl.
  - exists []. rewrite app_nil_r. by destruct (removeModal p).
  - unfold cart_bind_modal, cart_filled. simpl.
    destruct (foldl row_step _ _) as [subtotal rs]. simpl.
    destruct (removeModal p) as [m|]; simpl;
      [exists [None]; split; [done|by constructor]|by exists []].
Qed.

Lemma modal_shown_close (k : nat) (w : World) :
  pending w ≠ [] → modal_shown (world_after (closeRemoveModal k w)) = false.
Proof.
  unfold closeRemoveModal. rewrite modify_modal_world.
  unfold pending, modal_shown. simpl.
  destruct (cartPage w) as [p|]; [|done]. simpl.
  by destruct (removeModal p).
Qed.

Lemma confirm_listener_closes (k : nat) (w : World) (cart : list CartLine) :
  persisted w cart → pending w ≠ [] →
  ∃ extra cart',
    persisted (world_after (confirm_listener k w)) cart'
    ∧ pending (world_after (confirm_listener k w))
      = <[k := None]> (pending w ++ extra)
    ∧ Forall (λ v, v = None) extra
    ∧ modal_shown (world_after (confirm_listener k w)) = false.
Proof.
  intros Hw Hpending. unfold confirm_listener.
  erewrite bind_Returns by reflexivity.
  destruct (truthy (productIdToRemove k w)).
  - set (productId := default ""%string (productIdToRemove k w)).
    pose proof (removeItemFromCart_persisted w cart productId Hw) as Hremove.
    rewrite (bind_Returns _ _ _ _ _ Hremove).
    set (cart' := filter (λ item, item_id item ≠ productId) cart) in *.
    destruct (pending_rendered_nulls (reload <$> cart') (saved cart' w))
      as (extra & He & Hnulls).
    assert (pending (toasted "Item removed from cart."
                       (rendered (reload <$> cart') (saved cart' w)))
            = pending w ++ extra) as Hp
      by by rewrite pending_toasted, He.
    exists extra, (reload <$> cart'). split_and!.
    + apply persisted_modify_modal, persisted_toasted, persisted_rendered,
        persisted_saved.
    + by rewrite pending_closeRemoveModal, Hp.
    + done.
    + apply modal_shown_close. rewrite Hp. by destruct (pending w).
  - erewrite bind_Returns by reflexivity.
    exists [], cart. split_and!.
    + by apply persisted_modify_modal.
    + by rewrite pending_closeRemoveModal, app_nil_r.
    + constructor.
    + by apply modal_shown_close.
Qed.

Lemma confirm_all_close (ks : list nat) (w : World) (cart : list CartLine) :
  persisted w cart → pending w ≠ [] →
  let w' := foldl (λ w k, world_after (confirm_listener k w)) w ks in
  (∃ cart', persisted w' cart')
  ∧ (length (pending w) ≤ length (pending w'))%nat
  ∧ (∀ j, j ∈ ks ∨ (length (pending w) ≤ j)%nat → (j < length (pending w'))%nat →
       pending w' !! j = Some None)
  ∧ (∀ j, j ∉ ks → (j < length (pending w))%nat →
       pending w' !! j = pending w !! j)
  ∧ (ks ≠ [] → modal_shown w' = false).
Proof.
  revert w cart. induction ks as [|k ks IH]; intros w cart Hw Hpending.
  - simpl. split_and!; [by exists cart|done| |done|done].
    intros j [Hj%elem_of_nil|Hj] Hlt; [done|lia].
  - destruct (confirm_listener_closes k w cart Hw Hpending)
      as (extra & cart1 & Hw1 & Hp1 & Hnulls & Hshown1).
    set (w1 := world_after (confirm_listener k w)) in *.
    assert (length (pending w1) = (length (pending w) + length extra)%nat) as Hlen1
      by by rewrite Hp1, length_insert, length_app.
    assert (pending w1 ≠ []) as Hpending1.
    { intros Hnil. rewrite Hnil in Hlen1. destruct (pending w); simpl in *; [done|lia]. }
    assert (∀ j, (length (pending w) ≤ j)%nat → (j < length (pending w1))%nat →
                 pending w1 !! j = Some None) as Hextra.
    { intros j Hge Hlt. rewrite Hp1.
      destruct (decide (k = j)) as [->|Hne].
      - apply list_lookup_insert_eq. rewrite length_app. lia.
      - rewrite list_lookup_insert_ne, lookup_app_r by done.
        destruct (lookup_lt_is_Some_2 extra (j - length (pending w))%nat) as [v Hv];
          [lia|].
        rewrite Hv. f_equal. by eapply (Forall_lookup_1 _ _ _ _ Hnulls). }
    destruct (IH w1 cart1 Hw1 Hpending1) as (Hcart' & Hlen & Hnull & Hsame & Hshown).
    simpl foldl. fold w1. split_and!.
    + done.
    + lia.
    + intros j Hj Hlt. destruct (decide (j ∈ ks)) as [Hin|Hnotin].
      { apply Hnull; [by left|done]. }
      destruct (decide (j < length (pending w1))%nat) as [Hlt1|Hge1];
        [|apply Hnull; [right; lia|done]].
      rewrite Hsame by done.
      destruct Hj as [[->|Hin]%elem_of_cons|Hge]; [|done|by apply Hextra].
      rewrite Hp1. apply list_lookup_insert_eq. rewrite length_app. lia.
    + intros j Hj Hlt. apply not_elem_of_cons in Hj as [Hne Hnotin].
      rewrite Hsame by (done || lia). rewrite Hp1.
      rewrite list_lookup_insert_ne by done. by apply lookup_app_l.
    + intros _. destruct ks as [|k' ks]; [exact Hshown1|]. by apply Hshown.
Qed.

(** X18.  Confirm closes the dialog for good.  On a cart that loads, in
    a world where the buttons of the dialog carry listeners, Confirm
    leaves every [productIdToRemove] variable at [null] and the dialog
    hidden, and the cart still loads. *)
Theorem Confirm_clears_the_dialog (w : World) (cart : list CartLine) :
  persisted w cart → pending w ≠ [] →
  Forall (λ v, v = None) (pending (dispatch ClickConfirm w))
  ∧ modal_shown (dispatch ClickConfirm w) = false
  ∧ ∃ cart', persisted (dispatch ClickConfirm w) cart'.
Proof.
  intros Hw Hpending.
  assert (dispatch ClickConfirm w
          = foldl (λ w k, world_after (confirm_listener k w)) w
              (seq 0 (length (pending w)))) as ->.
  { unfold dispatch, run_listeners, activations, pending.
    by destruct (cartPage w ≫= removeModal). }
  destruct (confirm_all_close (seq 0 (length (pending w))) w cart Hw Hpending)
    as (Hcart' & Hlen & Hnull & _ & Hshown).
  split_and!; [|apply Hshown; by destruct (pending w)|done].
  apply Forall_lookup. intros j v Hj.
  pose proof (lookup_lt_Some _ _ _ Hj) as Hlt.
  rewrite Hnull in Hj; [congruence| |done].
  destruct (decide (j < length (pending w))%nat) as [Hin|Hout].
  - left. apply elem_of_seq. lia.
  - right. lia.
Qed.

Lemma Confirm_clears_the_dialog_witness :
  persisted two_requests
    [new_line shirt; set_quantity (VNumber (Fin 2)) (new_line dress)]
  ∧ pending two_requests ≠ []
  ∧ Forall (λ v, v = None) (pending (dispatch ClickConfirm two_requests))
  ∧ modal_shown (dispatch ClickConfirm two_requests) = false.
Proof.
  assert (persisted two_requests
            [new_line shirt; set_quantity (VNumber (Fin 2)) (new_line dress)])
    as Hw by (vm_compute; reflexivity).
  assert (pending two_requests ≠ []) as Hpending by (vm_compute; discriminate).
  split; [exact Hw|]. split; [exact Hpending|].
  destruct (Confirm_clears_the_dialog two_requests _ Hw Hpending)
    as (Hnulls & Hshown & _).
  split; [exact Hnulls | exact Hshown].
Defined.

Lemma Cancel_keeps_the_cart_witness :
  (ClickCancel = ClickCancel ∨ ClickCancel = ClickClose)
  ∧ localStorage (dispatch ClickCancel two_requests) = localStorage two_requests
  ∧ pending (dispatch ClickCancel two_requests)
    = replicate (length (pending two_requests)) None.
Proof.
  split; [left; reflexivity|].
  destruct (Cancel_keeps_the_cart ClickCancel two_requests (or_introl eq_refl))
    as (Hstore & _ & _ & Hpending & _).
  split; [exact Hstore | exact Hpending].
Defined.

Lemma Confirm_removes_the_single_target_witness :
  let w := dispatch (ClickRemove 0) loaded_cart_page in
  persisted w [new_line shirt; new_line dress]
  ∧ pending w = replicate 0 None ++ [Some "p1"%string]
  ∧ "p1"%string ≠ ""%string
  ∧ persisted (dispatch ClickConfirm w)
      (filter (λ item, item_id item ≠ "p1"%string) [new_line shirt; new_line dress]).
Proof.
  cbv zeta.
  assert (persisted (dispatch (ClickRemove 0) loaded_cart_page)
            [new_line shirt; new_line dress]) as Hw by (vm_compute; reflexivity).
  assert (pending (dispatch (ClickRemove 0) loaded_cart_page)
          = replicate 0 None ++ [Some "p1"%string]) as Hp
    by (vm_compute; reflexivity).
  assert ("p1"%string ≠ ""%string) as Hid by discriminate.
  split; [exact Hw|]. split; [exact Hp|]. split; [exact Hid|].
  apply (Confirm_removes_the_single_target _ _ 0 "p1" Hw Hp Hid).
Defined.

Lemma elem_of_without (productIds : list string) (cart : list CartLine)
    (item : CartLine) :
  item ∈ without productIds cart ↔ item ∈ cart ∧ item_id item ∉ productIds.
Proof.
  unfold without. revert cart.
  induction productIds as [|productId productIds IH]; intros cart.
  - simpl. split; [intros H; split; [done|apply not_elem_of_nil]|by intros [H _]].
  - simpl. rewrite IH, list_elem_of_filter, not_elem_of_cons. tauto.
Qed.

Lemma elem_of_targets (ks : list nat) (w : World) (productId : string) :
  productId ∈ targets ks w
  ↔ ∃ k, k ∈ ks ∧ pending w !! k = Some (Some productId) ∧ productId ≠ ""%string.
Proof.
  unfold targets. rewrite list_elem_of_omap. split.
  - intros (k & Hk & Hsome). exists k. split; [done|].
    destruct (pending w !! k) as [[productId'|]|]; [|done..].
    simpl in Hsome. destruct (String.eqb_spec productId' ""); simpl in Hsome;
      [done|]. by injection Hsome as ->.
  - intros (k & Hk & Hp & Hne). exists k. split; [done|].
    rewrite Hp. simpl. by rewrite (proj2 (String.eqb_neq productId "") Hne).
Qed.

(** X22.  Confirm removes exactly the pending targets.  On a cart that
    loads, a line is in the cart after Confirm exactly when it was in the
    cart before and no [productIdToRemove] variable, of whichever
    activation, held its id; a line with the empty id stays in any case,
    since the empty string is falsy.  The confirm listeners of all
    activations run, each on its own variable. *)
Theorem Confirm_removes_exactly_the_pending_targets (w : World)
    (cart : list CartLine) :
  persisted w cart →
  ∃ cart', persisted (dispatch ClickConfirm w) cart'
    ∧ ∀ item, item ∈ cart'
        ↔ item ∈ cart
          ∧ ∀ k, pending w !! k = Some (Some (item_id item)) →
                 item_id item = ""%string.
Proof.
  intros Hw. eexists. split; [by apply Confirm_removes_every_target|].
  intros item. rewrite elem_of_without, elem_of_targets. split.
  - intros [Hin Hnot]. split; [done|]. intros k Hk.
    destruct (decide (item_id item = ""%string)) as [|Hne]; [done|].
    exfalso. apply Hnot. exists k. split_and!; [|done..].
    apply elem_of_seq. apply lookup_lt_Some in Hk. lia.
  - intros [Hin Hall]. split; [done|]. intros (k & _ & Hk & Hne).
    by apply Hne, (Hall k).
Qed.

Lemma Confirm_removes_exactly_the_pending_targets_witness :
  persisted two_requests
    [new_line shirt; set_quantity (VNumber (Fin 2)) (new_line dress)]
  ∧ ∃ cart', persisted (dispatch ClickConfirm two_requests) cart'.
Proof.
  assert (persisted two_requests
            [new_line shirt; set_quantity (VNumber (Fin 2)) (new_line dress)])
    as Hw by (vm_compute; reflexivity).
  split; [exact Hw|].
  destruct (Confirm_removes_exactly_the_pending_targets two_requests _ Hw)
    as (cart' & Hcart' & _).
  exists cart'. exact Hcart'.
Defined.
